(** * score.py of the hf-tgi text-generation scoring script

    A shallow embedding of
    [sdk/python/foundation-models/system/inference/text-generation/llama-files/score/hf-tgi/score.py]
    and the properties of its request parsing, chat-history flattening,
    liveness polling, task-type detection and dispatch.

    Python strings are modelled as [string]: a sequence of code points
    below 256.  Logging calls have no effect on any value the script
    computes and are left out. *)

From Stdlib Require Import String Ascii List ZArith NArith Bool Arith Lia DecimalString.
From Equations Require Import Equations.
Import ListNotations.
Open Scope string_scope.

(** ** The double quote and the line feed, by their codes *)

Definition DQ : string := String "034" EmptyString.   (* the double quote *)
Definition LF : string := String "010" EmptyString.   (* the line feed *)

(** ** Python values, as [json.loads] and [yaml.safe_load] build them *)

Module Py.

(** A float is carried by its [repr]; nothing in the script computes
    with one. *)
#[local] Set Warnings "-register-all".
Inductive pyval : Type :=
| PNone
| PBool (b : bool)
| PInt (n : Z)
| PFloat (repr : string)
| PStr (s : string)
| PList (items : list pyval)
| PDict (items : list (string * pyval)).

(** The subclasses of [Exception] the script can meet.  [OtherError] is
    any other one, raised inside a library ([json], [yaml], [os],
    [psutil], [requests], [text_generation]). *)
Inductive exn : Type :=
| Exception (msg : string)
| AssertionError (msg : string)
| KeyError (key : string)
| TypeError (msg : string)
| AttributeError (msg : string)
| OtherError (cls : string) (msg : string).

Inductive outcome (A : Type) : Type :=
| Returned (a : A)
| Raised (e : exn).
Arguments Returned {A} a.
Arguments Raised {A} e.

Definition obind {A B} (c : outcome A) (k : A -> outcome B) : outcome B :=
  match c with
  | Returned a => k a
  | Raised e => Raised e
  end.

Definition type_name (v : pyval) : string :=
  match v with
  | PNone => "NoneType"
  | PBool _ => "bool"
  | PInt _ => "int"
  | PFloat _ => "float"
  | PStr _ => "str"
  | PList _ => "list"
  | PDict _ => "dict"
  end.

Definition is_dict (v : pyval) : bool :=
  match v with PDict _ => true | _ => false end.

(** [v == s] for a string literal [s]. *)
Definition eq_str (v : pyval) (s : string) : bool :=
  match v with PStr t => String.eqb t s | _ => false end.

(** Truth value of an object, as [if v:] tests it. *)
Definition truthy (v : pyval) : bool :=
  match v with
  | PNone => false
  | PBool b => b
  | PInt n => negb (Z.eqb n 0)
  | PFloat r => negb (String.eqb r "0.0" || String.eqb r "-0.0")
  | PStr s => negb (String.eqb s "")
  | PList items => match items with [] => false | _ => true end
  | PDict items => match items with [] => false | _ => true end
  end.

Fixpoint lookup (key : string) (items : list (string * pyval)) : option pyval :=
  match items with
  | [] => None
  | (k, v) :: rest => if String.eqb k key then Some v else lookup key rest
  end.

Definition no_attribute (v : pyval) (attr : string) : exn :=
  AttributeError ("'" ++ type_name v ++ "' object has no attribute '" ++ attr ++ "'").

(** [v.get(key, default)] *)
Definition get (v : pyval) (key : string) (default : pyval) : outcome pyval :=
  match v with
  | PDict items =>
      match lookup key items with
      | Some x => Returned x
      | None => Returned default
      end
  | _ => Raised (no_attribute v "get")
  end.

(** [v[key]] for a string [key]; the messages of [TypeError] are those
    of CPython 3.8 to 3.10. *)
Definition subscript (v : pyval) (key : string) : outcome pyval :=
  match v with
  | PDict items =>
      match lookup key items with
      | Some x => Returned x
      | None => Raised (KeyError key)
      end
  | PStr _ => Raised (TypeError "string indices must be integers")
  | PList _ => Raised (TypeError "list indices must be integers or slices, not str")
  | _ => Raised (TypeError ("'" ++ type_name v ++ "' object is not subscriptable"))
  end.

(** Substring test, for [key in v] on a string [v]. *)
Fixpoint is_prefix (p s : string) : bool :=
  match p, s with
  | EmptyString, _ => true
  | String a p', String b s' => Ascii.eqb a b && is_prefix p' s'
  | String _ _, EmptyString => false
  end.

Fixpoint is_substring (p s : string) : bool :=
  is_prefix p s ||
  match s with
  | EmptyString => false
  | String _ s' => is_substring p s'
  end.

(** [key in v] for a string [key] *)
Definition contains (v : pyval) (key : string) : outcome bool :=
  match v with
  | PDict items =>
      Returned (match lookup key items with Some _ => true | None => false end)
  | PList items => Returned (existsb (fun x => eq_str x key) items)
  | PStr s => Returned (is_substring key s)
  | _ => Raised (TypeError ("argument of type '" ++ type_name v ++ "' is not iterable"))
  end.

(** *** [str.strip()] *)

Definition is_space (c : ascii) : bool :=
  let n := N_of_ascii c in
  ((9 <=? n) && (n <=? 13) || (28 <=? n) && (n <=? 32) || (n =? 133) || (n =? 160))%N.

Fixpoint lstrip (s : string) : string :=
  match s with
  | EmptyString => EmptyString
  | String c s' => if is_space c then lstrip s' else s
  end.

Fixpoint rstrip (s : string) : string :=
  match s with
  | EmptyString => EmptyString
  | String c s' =>
      match rstrip s' with
      | EmptyString => if is_space c then EmptyString else String c EmptyString
      | t => String c t
      end
  end.

Definition str_strip (s : string) : string := rstrip (lstrip s).

(** [v.strip()] *)
Definition strip (v : pyval) : outcome string :=
  match v with
  | PStr s => Returned (str_strip s)
  | _ => Raised (no_attribute v "strip")
  end.

(** *** [str(v)] and [repr(v)] *)

Definition str_of_Z (n : Z) : string := NilZero.string_of_int (Z.to_int n).
Definition str_of_nat (n : nat) : string := str_of_Z (Z.of_nat n).

Definition hex_digit (n : N) : ascii :=
  if (n <? 10)%N then ascii_of_N (48 + n) else ascii_of_N (87 + n).

Definition hex2 (c : ascii) : string :=
  let n := N_of_ascii c in
  String (hex_digit (n / 16)) (String (hex_digit (n mod 16)) EmptyString).

Fixpoint has_char (c : ascii) (s : string) : bool :=
  match s with
  | EmptyString => false
  | String d s' => Ascii.eqb c d || has_char c s'
  end.

Definition printable (c : ascii) : bool :=
  let n := N_of_ascii c in
  ((32 <=? n) && (n <? 127) || (161 <=? n) && negb (n =? 173))%N.

Definition repr_char (quote : ascii) (c : ascii) : string :=
  if Ascii.eqb c quote || Ascii.eqb c "\" then String "\" (String c EmptyString)
  else if Ascii.eqb c "009" then "\t"
  else if Ascii.eqb c "010" then "\n"
  else if Ascii.eqb c "013" then "\r"
  else if printable c then String c EmptyString
  else "\x" ++ hex2 c.

Fixpoint repr_chars (quote : ascii) (s : string) : string :=
  match s with
  | EmptyString => EmptyString
  | String c s' => repr_char quote c ++ repr_chars quote s'
  end.

Definition repr_str (s : string) : string :=
  let quote := if has_char "'" s && negb (has_char "034" s) then "034"%char else "'"%char in
  String quote (repr_chars quote s ++ String quote EmptyString).

Fixpoint join (sep : string) (parts : list string) : string :=
  match parts with
  | [] => EmptyString
  | [p] => p
  | p :: rest => p ++ sep ++ join sep rest
  end.

Fixpoint repr (v : pyval) : string :=
  match v with
  | PNone => "None"
  | PBool true => "True"
  | PBool false => "False"
  | PInt n => str_of_Z n
  | PFloat r => r
  | PStr s => repr_str s
  | PList items => "[" ++ join ", " (map repr items) ++ "]"
  | PDict items =>
      "{" ++ join ", " (map (fun kv => repr_str (fst kv) ++ ": " ++ repr (snd kv)) items) ++ "}"
  end.

(** [str(v)], which is also what an f-string field [{v}] prints. *)
Definition str (v : pyval) : string :=
  match v with
  | PStr s => s
  | _ => repr v
  end.

(** [str(e)] for an exception: its message; for a [KeyError] the [repr]
    of the missing key. *)
Definition str_exn (e : exn) : string :=
  match e with
  | Exception msg => msg
  | AssertionError msg => msg
  | KeyError key => repr_str key
  | TypeError msg => msg
  | AttributeError msg => msg
  | OtherError _ msg => msg
  end.

(** [s.endswith(suffix)] *)
Fixpoint ends_with (suffix s : string) : bool :=
  String.eqb s suffix ||
  match s with
  | EmptyString => false
  | String _ s' => ends_with suffix s'
  end.

(** [posixpath.join(a, b)] *)
Definition path_join (a b : string) : string :=
  if is_prefix "/" b then b
  else if String.eqb a "" || ends_with "/" a then a ++ b
  else a ++ "/" ++ b.

End Py.

(** ** [json.dumps], with its default separators and [ensure_ascii] *)

Module Json.
Import Py.

Definition escape_char (c : ascii) : string :=
  if Ascii.eqb c "\" then "\\"
  else if Ascii.eqb c "034" then String "\" DQ
  else if Ascii.eqb c "008" then "\b"
  else if Ascii.eqb c "012" then "\f"
  else if Ascii.eqb c "010" then "\n"
  else if Ascii.eqb c "013" then "\r"
  else if Ascii.eqb c "009" then "\t"
  else
    let n := N_of_ascii c in
    if ((32 <=? n) && (n <=? 126))%N then String c EmptyString
    else "\u00" ++ hex2 c.

Fixpoint escape (s : string) : string :=
  match s with
  | EmptyString => EmptyString
  | String c s' => escape_char c ++ escape s'
  end.

Definition encode_basestring_ascii (s : string) : string :=
  DQ ++ escape s ++ DQ.

Definition floatstr (r : string) : string :=
  if String.eqb r "nan" then "NaN"
  else if String.eqb r "inf" then "Infinity"
  else if String.eqb r "-inf" then "-Infinity"
  else r.

Fixpoint dumps (v : pyval) : string :=
  match v with
  | PNone => "null"
  | PBool true => "true"
  | PBool false => "false"
  | PInt n => str_of_Z n
  | PFloat r => floatstr r
  | PStr s => encode_basestring_ascii s
  | PList items => "[" ++ join ", " (map dumps items) ++ "]"
  | PDict items =>
      "{" ++ join ", "
               (map (fun kv => encode_basestring_ascii (fst kv) ++ ": " ++ dumps (snd kv)) items)
          ++ "}"
  end.

End Json.

Import Py.

(** ** What the script does to the outside, in the order it does it *)

Inductive event : Type :=
| Slept (seconds : Z)                                   (* time.sleep *)
| Polled                                                (* one pass over psutil.process_iter() *)
| Posted (url data : string)                            (* requests.post *)
| Ran (cmd : string)                                    (* os.system *)
| Generated (prompt : pyval) (params : list (string * pyval)).   (* client.generate *)

(** ** The libraries and the machine around the script

    [Ext] is the state of everything outside the interpreter: the file
    system, the process table, the backend server.  [json.loads] and the
    readers are functions of their arguments; the others can change [Ext].
    [yaml_safe_load x path] is [yaml.safe_load] on the open file,
    [process_names] the names [psutil.process_iter] yields,
    [requests_post] the status code of the response, [client_generate]
    the [generated_text] of the response. *)

Class Platform : Type := {
  Ext : Type;
  Client : Type;
  json_loads : string -> outcome pyval;
  environ_get : Ext -> string -> option string;
  path_exists : Ext -> string -> bool;
  yaml_safe_load : Ext -> string -> outcome pyval;
  os_listdir : Ext -> string -> outcome (list string);
  os_system : string -> Ext -> Ext;
  time_sleep : Z -> Ext -> Ext;
  process_names : Ext -> outcome (list string) * Ext;
  requests_post : string -> string -> Ext -> outcome Z * Ext;
  new_client : string -> pyval -> Ext -> outcome Client * Ext;
  client_generate : Client -> pyval -> list (string * pyval) -> Ext -> outcome string * Ext
}.

(** ** Module-level constants *)

Definition PORT : Z := 80.
Definition LOCAL_HOST_URI : string := "http://0.0.0.0:" ++ str_of_Z PORT.
Definition TEXT_GEN_LAUNCHER_PROCESS_NAME : string := "text-generation-launcher".
Definition MODEL_ID : string := "MODEL_ID".
Definition CLIENT_TIMEOUT : string := "TIMEOUT".
Definition MAX_REQUEST_TIMEOUT : Z := 90.

Module SupportedTask.
Definition TEXT_GENERATION : string := "text-generation".
Definition CHAT_COMPLETION : string := "chat-completion".
End SupportedTask.

Definition MLMODEL_PATH : string := "mlflow_model_folder/MLmodel".
Definition DEFAULT_MODEL_ID_PATH : string := "mlflow_model_folder/data/model".

Definition WAIT_TIME : Z := 20.
Definition RETRY_COUNT : nat := 5.

Section Script.
Context {P : Platform}.

(** ** The interpreter state: the two globals, the outside, the trace *)

Record World : Type := mkWorld {
  client : option Client;
  task_type : pyval;
  ext : Ext;
  trace : list event
}.

(** The state right after the module is loaded: [client = None],
    [task_type = SupportedTask.TEXT_GENERATION]. *)
Definition initial_world (x : Ext) : World :=
  mkWorld None (PStr SupportedTask.TEXT_GENERATION) x [].

Definition set_client (c : Client) (w : World) : World :=
  mkWorld (Some c) (task_type w) (ext w) (trace w).

Definition set_task_type (t : pyval) (w : World) : World :=
  mkWorld (client w) t (ext w) (trace w).

(** One step of the outside: the new [Ext] and the event it leaves. *)
Definition step (x : Ext) (ev : event) (w : World) : World :=
  mkWorld (client w) (task_type w) x (trace w ++ [ev]).

(** ** Statements: a state and exception monad *)

Definition M (A : Type) : Type := World -> outcome A * World.

Definition ret {A} (a : A) : M A := fun w => (Returned a, w).

Definition raise {A} (e : exn) : M A := fun w => (Raised e, w).

Definition bind {A B} (c : M A) (k : A -> M B) : M B :=
  fun w =>
    match c w with
    | (Returned a, w') => k a w'
    | (Raised e, w') => (Raised e, w')
    end.

(** [try: body except Exception as e: handler e] *)
Definition try_except {A} (body : M A) (handler : exn -> M A) : M A :=
  fun w =>
    match body w with
    | (Returned a, w') => (Returned a, w')
    | (Raised e, w') => handler e w'
    end.

Definition lift {A} (c : outcome A) : M A := fun w => (c, w).

Definition read {A} (f : World -> A) : M A := fun w => (Returned (f w), w).

Definition write (f : World -> World) : M unit := fun w => (Returned tt, f w).

End Script.

Declare Scope py_scope.
Delimit Scope py_scope with py.
Notation "x <- c ;; k" := (bind c (fun x => k))
  (at level 61, c at next level, right associativity) : py_scope.
Notation "' pat <- c ;; k" := (bind c (fun x => let pat := x in k))
  (at level 61, pat pattern, c at next level, right associativity) : py_scope.
Notation "c ;; k" := (bind c (fun _ => k))
  (at level 61, right associativity) : py_scope.
Notation "'let?' x ':=' c 'in' k" := (obind c (fun x => k))
  (at level 61, x name, c at next level, right associativity) : py_scope.
Open Scope py_scope.

Section Startup.
Context {P : Platform}.

(** ** Calls into the outside *)

Definition sleep (seconds : Z) : M unit :=
  fun w => (Returned tt, step (time_sleep seconds (ext w)) (Slept seconds) w).

Definition system (cmd : string) : M unit :=
  fun w => (Returned tt, step (os_system cmd (ext w)) (Ran cmd) w).

(** [[p.name() for p in psutil.process_iter()]] *)
Definition process_iter_names : M (list string) :=
  fun w => let (r, x) := process_names (ext w) in (r, step x Polled w).

(** [requests.post(url=url, data=data, headers=...).status_code] *)
Definition post (url data : string) : M Z :=
  fun w => let (r, x) := requests_post url data (ext w) in (r, step x (Posted url data) w).

(** [Client(uri, timeout=timeout)] *)
Definition Client_new (uri : string) (timeout : pyval) : M Client :=
  fun w => let (r, x) := new_client uri timeout (ext w) in
           (r, mkWorld (client w) (task_type w) x (trace w)).

(** [c.generate(prompt, **params).generated_text] *)
Definition generate (c : Client) (prompt : pyval) (params : list (string * pyval)) : M string :=
  fun w => let (r, x) := client_generate c prompt params (ext w) in
           (r, step x (Generated prompt params) w).

(** [os.environ.get(name, default)] *)
Definition environ_get_default (name : string) (default : pyval) : M pyval :=
  read (fun w => match environ_get (ext w) name with
                 | Some s => PStr s
                 | None => default
                 end).

(** [os.getenv(name, default)] with a string default *)
Definition getenv (name default : string) : M string :=
  read (fun w => match environ_get (ext w) name with
                 | Some s => s
                 | None => default
                 end).

(** ** [is_server_healthy] *)

(** The [while] loop of lines 68-71; [count] is the loop variable, and
    the value returned is [count] when the loop is left. *)
Equations? while_not_running (count : nat) (w : World) : outcome nat * World
  by wf (RETRY_COUNT - count) lt :=
  while_not_running count w with lt_dec count RETRY_COUNT := {
    | right _ := (Returned count, w);
    | left _ with process_iter_names w := {
        | (Raised e, w1) := (Raised e, w1);
        | (Returned names, w1)
            with existsb (String.eqb TEXT_GEN_LAUNCHER_PROCESS_NAME) names := {
            | true := (Returned count, w1);
            | false := while_not_running (S count) (snd (sleep WAIT_TIME w1)) } } }.
Proof. change (RETRY_COUNT - S count < RETRY_COUNT - count). lia. Qed.

Definition is_server_healthy : M bool :=
  count <- while_not_running 0 ;;
  if (RETRY_COUNT <=? count)%nat then
    let total_dur := (Z.of_nat RETRY_COUNT * WAIT_TIME)%Z in
    raise (Exception ("Sever process not running after waiting for "
                        ++ str_of_Z total_dur ++ ". Terminating"))
  else
    sleep 5 ;;
    let payload_dict :=
      PDict [("inputs", PStr "Meaning of life is");
             ("parameters", PDict [("max_new_tokens", PInt 2)])] in
    let json_str := Json.dumps payload_dict in
    try_except
      (status_code <- post LOCAL_HOST_URI json_str ;;
       if ((status_code =? 200) || (status_code =? 201))%Z then ret true else ret false)
      (fun _ => ret false).

(** ** [init] *)

(** Lines 116-126: the model descriptor and the task type. *)
Definition init_task_type (abs_mlmodel_path : string) : M unit :=
  found <- read (fun w => negb (String.eqb abs_mlmodel_path "")
                          && path_exists (ext w) abs_mlmodel_path) ;;
  mlmodel <- (if found
              then x <- read ext ;; lift (yaml_safe_load x abs_mlmodel_path)
              else ret (PDict [])) ;;
  if truthy mlmodel then
    flavors <- lift (get mlmodel "flavors" (PDict [])) ;;
    present <- lift (contains flavors "hftransformersv2") ;;
    if present then
      flavor <- lift (subscript flavors "hftransformersv2") ;;
      t <- lift (subscript flavor "task_type") ;;
      write (set_task_type t) ;;
      if negb (eq_str t SupportedTask.TEXT_GENERATION || eq_str t SupportedTask.CHAT_COMPLETION)
      then raise (Exception ("Unsupported task_type " ++ str t))
      else ret tt
    else ret tt
  else ret tt.

(** Lines 108-134: everything before the readiness loop.  Returns
    [client_timeout], which the end of [init] needs. *)
Definition init_launch : M pyval :=
  model_id <- getenv MODEL_ID DEFAULT_MODEL_ID_PATH ;;
  client_timeout <- environ_get_default CLIENT_TIMEOUT (PInt MAX_REQUEST_TIMEOUT) ;;
  model_dir <- getenv "AZUREML_MODEL_DIR" "" ;;
  let model_path := path_join model_dir model_id in
  let abs_mlmodel_path := path_join model_dir MLMODEL_PATH in
  init_task_type abs_mlmodel_path ;;
  x <- read ext ;;
  _ <- lift (os_listdir x model_path) ;;
  let cmd := "text-generation-launcher --model-id " ++ model_path ++ " &" in
  system cmd ;;
  sleep 20 ;;
  ret client_timeout.

(** Lines 136-139: [while not is_server_healthy(): time.sleep(60)].  The
    loop has no bound; [None] means the [fuel] iterations given to the
    model were all used with the server still not answering. *)
Fixpoint while_not_healthy (fuel : nat) (w : World) : option (outcome unit * World) :=
  match fuel with
  | O => None
  | S fuel' =>
      match is_server_healthy w with
      | (Raised e, w1) => Some (Raised e, w1)
      | (Returned true, w1) => Some (Returned tt, w1)
      | (Returned false, w1) => while_not_healthy fuel' (snd (sleep 60 w1))
      end
  end.

(** Lines 142-147: after the loop. *)
Definition init_client (client_timeout : pyval) : M unit :=
  system "nvidia-smi" ;;
  c <- Client_new LOCAL_HOST_URI client_timeout ;;
  write (set_client c).

(** The [except] clause of [init]. *)
Definition init_error (e : exn) : exn :=
  Exception ("Error in creating client or server: " ++ str_exn e).

Definition init (fuel : nat) (w : World) : option (outcome unit * World) :=
  match init_launch w with
  | (Raised e, w1) => Some (Raised (init_error e), w1)
  | (Returned client_timeout, w1) =>
      match while_not_healthy fuel w1 with
      | None => None
      | Some (Raised e, w2) => Some (Raised (init_error e), w2)
      | Some (Returned _, w2) =>
          match init_client client_timeout w2 with
          | (Raised e, w3) => (Some (Raised (init_error e), w3))
          | (Returned _, w3) => Some (Returned tt, w3)
          end
      end
  end.

End Startup.

(** ** [get_processed_input_data_for_chat_completion] *)

(** [assert b] and [assert b, msg]; a bare [assert] has the empty message. *)
Definition assert (b : bool) (msg : string) : outcome unit :=
  if b then Returned tt else Raised (AssertionError msg).

Definition B_INST : string := "[INST]".
Definition E_INST : string := "[/INST]".

(** The [for i, conv in enumerate(conv_arr[1:])] loop of lines 171-177,
    from index [i] on, with [history] as built so far. *)
Fixpoint chat_turns (i : nat) (convs : list pyval) (history : string) : outcome string :=
  match convs with
  | [] => Returned history
  | conv :: rest =>
      if Nat.eqb (i mod 2) 0 then
        let? role := subscript conv "role" in
        let? _ := assert (eq_str role "assistant") "" in
        let? content := subscript conv "content" in
        let? text := strip content in
        chat_turns (S i) rest (history ++ text ++ LF)
      else
        let? role := subscript conv "role" in
        let? _ := assert (eq_str role "user") "" in
        let? content := subscript conv "content" in
        let? text := strip content in
        chat_turns (S i) rest (history ++ B_INST ++ text ++ E_INST)
  end.

Definition get_processed_input_data_for_chat_completion (data : list pyval) : outcome string :=
  let conv_arr := data in
  let history := "" in
  let? _ := assert (0 <? length conv_arr)%nat "" in
  match conv_arr with
  | [] => Raised (OtherError "IndexError" "list index out of range")
  | first :: rest =>
      let? role := subscript first "role" in
      let? _ := assert (eq_str role "user") "" in
      let? content := subscript first "content" in
      let? text := strip content in
      let history := history ++ B_INST ++ text ++ E_INST in
      let? role := subscript (last conv_arr first) "role" in
      let? _ := assert (eq_str role "user") "" in
      chat_turns 0 rest history
  end.

(** ** [get_request_data] *)

Definition quoted (s : string) : string := DQ ++ s ++ DQ.

(** The text under ["error"] in the parser's payload (lines 215-219). *)
Definition usage_hint : string :=
  "Expected input format: " ++ LF ++
  "{" ++ quoted "input_data" ++ ": {" ++ quoted "input_string" ++ ": " ++ quoted "<query>"
      ++ ", " ++ quoted "parameters" ++ ": {" ++ quoted "k1" ++ ":" ++ quoted "v1" ++ ", "
      ++ quoted "k2" ++ ":" ++ quoted "v2" ++ "}}}." ++ LF ++ " " ++
  "<query> should be in below format:" ++ LF ++ " " ++
  "For text-generation: [" ++ quoted "str1" ++ ", " ++ quoted "str2" ++ ", ...]" ++ LF ++
  "For chat-completion : [{" ++ quoted "role" ++ ": " ++ quoted "user" ++ ", "
      ++ quoted "content" ++ ": " ++ quoted "str1" ++ "}, {" ++ quoted "role" ++ ": "
      ++ quoted "assistant" ++ ", " ++ quoted "content" ++ ": " ++ quoted "str2" ++ "} ....]".

(** The object the [except] clause of [get_request_data] serialises. *)
Definition parse_error_payload (e : exn) : string :=
  Json.dumps (PDict [("error", PStr usage_hint); ("exception", PStr (str_exn e))]).

Section Scoring.
Context {P : Platform}.

(** Returns [input_data] and the items of the [params] dict. *)
Definition get_request_data (request_string : string) : M (pyval * list (string * pyval)) :=
  try_except
    (data <- lift (json_loads request_string) ;;
     inputs <- lift (get data "input_data" PNone) ;;
     if negb (is_dict inputs) then raise (Exception "Invalid input data") else
     input_data <- lift (subscript inputs "input_string") ;;
     params <- lift (get inputs "parameters" (PDict [])) ;;
     match input_data with
     | PList items =>
         match params with
         | PDict kwargs =>
             t <- read task_type ;;
             if eq_str t SupportedTask.CHAT_COMPLETION then
               history <- lift (get_processed_input_data_for_chat_completion items) ;;
               ret (PStr history, kwargs)
             else ret (input_data, kwargs)
         | _ => raise (Exception "parameters is not a dict")
         end
     | _ => raise (Exception "query is not a list")
     end)
    (fun e => raise (Exception (parse_error_payload e))).

(** ** [run] *)

(** The [for i, q in enumerate(query)] loop of lines 248-253, from index
    [i] on, with [results] as built so far. *)
Fixpoint generate_each (c : Client) (i : nat) (query : list pyval)
    (params : list (string * pyval)) (results : list pyval) : M (list pyval) :=
  match query with
  | [] => ret results
  | q :: rest =>
      response_str <- generate c q params ;;
      generate_each c (S i) rest params (results ++ [PDict [(str_of_nat i, PStr response_str)]])
  end.

(** The object the [except] clause of [run] serialises. *)
Definition error_envelope (e : exn) : string :=
  Json.dumps (PDict [("error", PStr "Error in processing request");
                     ("exception", PStr (str_exn e))]).

(** The [try] suite of [run], lines 231-254. *)
Definition run_body (data : string) : M string :=
  cl <- read client ;;
  match cl with
  | None => raise (Exception "Client is not initialized")
  | Some c =>
      '(query, params) <- get_request_data data ;;
      t <- read task_type ;;
      if eq_str t SupportedTask.CHAT_COMPLETION then
        response_str <- generate c query params ;;
        let result_dict := PDict [("0", PStr response_str)] in
        ret (Json.dumps result_dict)
      else
        match eq_str t SupportedTask.TEXT_GENERATION, query with
        | true, PList prompts =>
            results <- generate_each c 0 prompts params [] ;;
            ret (Json.dumps (PList results))
        | _, _ => raise (AssertionError "query should be a list for text-generation")
        end
  end.

Definition run (data : string) : M string :=
  try_except (run_body data) (fun e => ret (error_envelope e)).

End Scoring.

(** ** The transcript of the specification *)

Module Spec.

Inductive Role : Type := User | Assistant.

Record ChatTurn : Type := mkTurn { role : Role; content : string }.

Definition Transcript : Type := list ChatTurn.

Definition role_name (r : Role) : string :=
  match r with
  | User => "user"
  | Assistant => "assistant"
  end.

(** A turn as the request carries it. *)
Definition to_py (turn : ChatTurn) : pyval :=
  PDict [("role", PStr (role_name (role turn))); ("content", PStr (content turn))].

Definition is_user (turn : ChatTurn) : bool :=
  match role turn with User => true | Assistant => false end.

Definition is_assistant (turn : ChatTurn) : bool :=
  match role turn with User => false | Assistant => true end.

(** Turns alternate Assistant, User, Assistant, ... when [assistant_next],
    and User, Assistant, User, ... otherwise. *)
Fixpoint alternates (assistant_next : bool) (turns : Transcript) : bool :=
  match turns with
  | [] => true
  | turn :: rest =>
      (if assistant_next then is_assistant turn else is_user turn)
      && alternates (negb assistant_next) rest
  end.

Definition first_is_user (t : Transcript) : bool :=
  match t with
  | [] => false
  | first :: _ => is_user first
  end.

Definition last_is_user (t : Transcript) : bool :=
  match t with
  | [] => false
  | first :: _ => is_user (last t first)
  end.

(** The alternation invariant: non-empty, first and last turn User,
    strictly alternating after the first. *)
Definition alternation_invariant (t : Transcript) : bool :=
  first_is_user t && last_is_user t && alternates true (tl t).

(** What the specification says each turn contributes. *)
Definition render (turn : ChatTurn) : string :=
  match role turn with
  | User => B_INST ++ str_strip (content turn) ++ E_INST
  | Assistant => str_strip (content turn) ++ LF
  end.

Definition flatten (t : Transcript) : string :=
  fold_right (fun turn rest => render turn ++ rest) "" t.

(** [enumerate] over the generated texts, as the result objects
    [{str(i): text}]. *)
Fixpoint numbered (i : nat) (texts : list string) : list pyval :=
  match texts with
  | [] => []
  | t :: rest => PDict [(str_of_nat i, PStr t)] :: numbered (S i) rest
  end.

(** The three shapes of a response of the scoring entry point. *)
Inductive response : string -> Prop :=
| chat_response (text : string) :
    response (Json.dumps (PDict [("0", PStr text)]))
| text_response (texts : list string) :
    response (Json.dumps (PList (numbered 0 texts)))
| error_response (e : exn) :
    response (error_envelope e).

(** The path [flavors / hftransformersv2 / task_type] of a descriptor. *)
Definition descriptor_task_type (mlmodel : pyval) : option pyval :=
  match mlmodel with
  | PDict top =>
      match lookup "flavors" top with
      | Some (PDict flavors) =>
          match lookup "hftransformersv2" flavors with
          | Some (PDict flavor) => lookup "task_type" flavor
          | _ => None
          end
      | _ => None
      end
  | _ => None
  end.

(** The descriptor is a mapping with no [hftransformersv2] flavor: it has
    no [flavors], or its [flavors] is a mapping without that entry. *)
Definition no_hftransformersv2 (mlmodel : pyval) : bool :=
  match mlmodel with
  | PDict top =>
      match lookup "flavors" top with
      | None => true
      | Some (PDict flavors) =>
          match lookup "hftransformersv2" flavors with
          | None => true
          | Some _ => false
          end
      | Some _ => false
      end
  | _ => false
  end.

(** The shapes of a parsed payload that the parser refuses. *)
Definition top_not_object (data : pyval) : bool := negb (is_dict data).

Definition input_data_missing_or_not_object (data : pyval) : bool :=
  match data with
  | PDict top =>
      match lookup "input_data" top with
      | Some (PDict _) => false
      | _ => true
      end
  | _ => false
  end.

Definition input_string_missing_or_not_sequence (data : pyval) : bool :=
  match data with
  | PDict top =>
      match lookup "input_data" top with
      | Some (PDict inputs) =>
          match lookup "input_string" inputs with
          | Some (PList _) => false
          | _ => true
          end
      | _ => false
      end
  | _ => false
  end.

Definition parameters_present_not_mapping (data : pyval) : bool :=
  match data with
  | PDict top =>
      match lookup "input_data" top with
      | Some (PDict inputs) =>
          match lookup "parameters" inputs with
          | None | Some (PDict _) => false
          | Some _ => true
          end
      | _ => false
      end
  | _ => false
  end.

End Spec.

(** ** What the outside does, and what the script did to it *)

Section Outside.
Context {P : Platform}.

(** The world [w] after the events [calls] have left the outside in [x]. *)
Definition after_calls (w : World) (x : Ext) (calls : list event) : World :=
  mkWorld (client w) (task_type w) x (trace w ++ calls).

(** [abs_mlmodel_path] as [init] computes it (line 115). *)
Definition abs_mlmodel_path (x : Ext) : string :=
  path_join (match environ_get x "AZUREML_MODEL_DIR" with
             | Some dir => dir
             | None => ""
             end) MLMODEL_PATH.

(** The descriptor [init] reads: [None] when there is no file. *)
Definition mlmodel_file (x : Ext) : option (outcome pyval) :=
  if negb (String.eqb (abs_mlmodel_path x) "") && path_exists x (abs_mlmodel_path x)
  then Some (yaml_safe_load x (abs_mlmodel_path x))
  else None.

(** A statement that leaves the global [task_type] as it finds it. *)
Definition keeps_task_type {A} (c : M A) : Prop :=
  forall w, task_type (snd (c w)) = task_type w.

(** The events of [n] attempts that do not find the process. *)
Fixpoint attempts (n : nat) : list event :=
  match n with
  | O => []
  | S n' => Polled :: Slept WAIT_TIME :: attempts n'
  end.

Definition launcher_in (names : list string) : bool :=
  existsb (String.eqb TEXT_GEN_LAUNCHER_PROCESS_NAME) names.

(** None of the next [n] attempts, [WAIT_TIME] apart, finds the process. *)
Fixpoint never_found (n : nat) (x : Ext) : bool :=
  match n with
  | O => true
  | S n' =>
      match process_names x with
      | (Returned names, x') =>
          negb (launcher_in names) && never_found n' (time_sleep WAIT_TIME x')
      | (Raised _, _) => false
      end
  end.

(** One of the next [n] attempts finds it, the ones before it do not. *)
Fixpoint found_within (n : nat) (x : Ext) : bool :=
  match n with
  | O => false
  | S n' =>
      match process_names x with
      | (Returned names, x') =>
          launcher_in names || found_within n' (time_sleep WAIT_TIME x')
      | (Raised _, _) => false
      end
  end.

(** The seconds slept along a trace. *)
Fixpoint slept (tr : list event) : Z :=
  match tr with
  | [] => 0
  | Slept s :: rest => s + slept rest
  | _ :: rest => slept rest
  end.

Fixpoint polls (tr : list event) : nat :=
  match tr with
  | [] => 0
  | Polled :: rest => S (polls rest)
  | _ :: rest => polls rest
  end.

(** The backend asked the prompts one after the other, from [x]. *)
Fixpoint ask_all (c : Client) (params : list (string * pyval)) (prompts : list pyval)
    (x : Ext) : outcome (list string) * Ext :=
  match prompts with
  | [] => (Returned [], x)
  | q :: rest =>
      match client_generate c q params x with
      | (Returned t, x') =>
          match ask_all c params rest x' with
          | (Returned ts, x'') => (Returned (t :: ts), x'')
          | (Raised e, x'') => (Raised e, x'')
          end
      | (Raised e, x') => (Raised e, x')
      end
  end.

End Outside.

(** ** More of what the script finds and leaves outside *)

(** The body of the probe request (lines 79-84). *)
Definition probe_payload : string :=
  Json.dumps (PDict [("inputs", PStr "Meaning of life is");
                     ("parameters", PDict [("max_new_tokens", PInt 2)])]).

Definition is_generated (ev : event) : bool :=
  match ev with
  | Generated _ _ => true
  | _ => false
  end.

(** A turn object with any value as its role. *)
Definition turn_of (turn : pyval * string) : pyval :=
  PDict [("role", fst turn); ("content", PStr (snd turn))].

Definition known_role (r : pyval) : bool := eq_str r "user" || eq_str r "assistant".

Definition same_role (a b : Spec.Role) : bool :=
  match a, b with
  | Spec.User, Spec.User | Spec.Assistant, Spec.Assistant => true
  | _, _ => false
  end.

(** Two transcripts with the same roles, turn by turn, and contents that
    differ by leading and trailing whitespace at most. *)
Fixpoint same_trimmed (t1 t2 : Spec.Transcript) : bool :=
  match t1, t2 with
  | [], [] => true
  | a :: r1, b :: r2 =>
      same_role (Spec.role a) (Spec.role b)
      && String.eqb (str_strip (Spec.content a)) (str_strip (Spec.content b))
      && same_trimmed r1 r2
  | _, _ => false
  end.

Section Startup_outside.
Context {P : Platform}.

(** Attempt [j] is the first to find the process; the outside after it. *)
Fixpoint found_at (j : nat) (x : Ext) : option Ext :=
  match process_names x with
  | (Returned names, x') =>
      match j with
      | O => if launcher_in names then Some x' else None
      | S j' => if launcher_in names then None else found_at j' (time_sleep WAIT_TIME x')
      end
  | (Raised _, _) => None
  end.

(** [model_path] as [init] computes it (lines 108, 114). *)
Definition model_path (x : Ext) : string :=
  path_join (match environ_get x "AZUREML_MODEL_DIR" with
             | Some dir => dir
             | None => ""
             end)
            (match environ_get x MODEL_ID with
             | Some id => id
             | None => DEFAULT_MODEL_ID_PATH
             end).

(** [client_timeout] as [init] computes it (line 109). *)
Definition client_timeout (x : Ext) : pyval :=
  match environ_get x CLIENT_TIMEOUT with
  | Some s => PStr s
  | None => PInt MAX_REQUEST_TIMEOUT
  end.

(** [cmd] as [init] computes it (line 132). *)
Definition launch_command (x : Ext) : string :=
  "text-generation-launcher --model-id " ++ model_path x ++ " &".

(** A statement that leaves the global [client] as it finds it. *)
Definition keeps_client {A} (c : M A) : Prop :=
  forall w, client (snd (c w)) = client w.

(** A statement that touches neither the outside nor the trace. *)
Definition stays_inside {A} (c : M A) : Prop :=
  forall w, ext (snd (c w)) = ext w /\ trace (snd (c w)) = trace w.

End Startup_outside.

(** ** A simulated machine, to run the script on *)

Module Sim.

(** Stands in for [json.loads] on the serialisations of [samples]. *)
Definition loads_samples (samples : list pyval) (raw : string) : outcome pyval :=
  match find (fun v => String.eqb (Json.dumps v) raw) samples with
  | Some v => Returned v
  | None => Raised (OtherError "JSONDecodeError" "Expecting value: line 1 column 1 (char 0)")
  end.

(** The outside state counts the passes over the process table;
    [names n] is the table on pass [n], [descriptor] the content of the
    MLmodel file when there is one, [status] what the probe meets and
    [reply] the backend. *)
Definition machine (samples : list pyval) (descriptor : option pyval)
    (names : nat -> list string) (status : outcome Z)
    (reply : pyval -> outcome string) : Platform :=
  {| Ext := nat;
     Client := unit;
     json_loads := loads_samples samples;
     environ_get := fun _ _ => None;
     path_exists := fun _ p =>
       match descriptor with
       | Some _ => String.eqb p MLMODEL_PATH
       | None => false
       end;
     yaml_safe_load := fun _ _ =>
       match descriptor with
       | Some d => Returned d
       | None => Raised (OtherError "FileNotFoundError" "No such file or directory")
       end;
     os_listdir := fun _ _ => Returned [];
     os_system := fun _ x => x;
     time_sleep := fun _ x => x;
     process_names := fun x => (Returned (names x), S x);
     requests_post := fun _ _ x => (status, x);
     new_client := fun _ _ x => (Returned tt, x);
     client_generate := fun _ q _ x => (reply q, x) |}.

Definition echo (q : pyval) : outcome string := Returned ("re: " ++ str q).

Definition timeout (q : pyval) : outcome string :=
  Raised (OtherError "ReadTimeout" "Read timed out.").

Definition absent (n : nat) : list string := ["python"; "nginx"].

Definition present_from (k n : nat) : list string :=
  if (k <=? n)%nat then ["python"; TEXT_GEN_LAUNCHER_PROCESS_NAME] else ["python"].

(** Sample payloads. *)
Definition two_prompts : pyval :=
  PDict [("input_data",
          PDict [("input_string", PList [PStr "p0"; PStr "p1"]);
                 ("parameters", PDict [("max_new_tokens", PInt 100); ("do_sample", PBool true)])])].

Definition no_prompts : pyval :=
  PDict [("input_data", PDict [("input_string", PList [])])].

Definition foo_payload : pyval := PDict [("foo", PInt 1)].

Definition samples : list pyval := [two_prompts; no_prompts; foo_payload].

(** Sample descriptors. *)
Definition flavor_without_task_type : pyval :=
  PDict [("flavors", PDict [("hftransformersv2", PDict [("model_id", PStr "llama")])])].

Definition other_flavor : pyval :=
  PDict [("flavors", PDict [("python_function", PDict [("loader_module", PStr "mlflow")])])].

Definition summarization : pyval :=
  PDict [("flavors", PDict [("hftransformersv2", PDict [("task_type", PStr "summarization")])])].

Definition serving : Platform := machine samples None (present_from 0) (Returned 200%Z) echo.

Definition timing_out : Platform :=
  machine samples None (present_from 0) (Returned 200%Z) timeout.

Definition never_started : Platform := machine samples None absent (Returned 200%Z) echo.

Definition started_late : Platform :=
  machine samples None (present_from 3) (Returned 500%Z) echo.

Definition described (descriptor : pyval) : Platform :=
  machine samples (Some descriptor) (present_from 0) (Returned 200%Z) echo.

(** A world in which [init] has run for text generation. *)
Definition ready : World (P := serving) :=
  mkWorld (P := serving) (Some tt) (PStr SupportedTask.TEXT_GENERATION) O [].

Definition ready_timing_out : World (P := timing_out) :=
  mkWorld (P := timing_out) (Some tt) (PStr SupportedTask.TEXT_GENERATION) O [].

(** A transcript payload, and one that ends on an assistant turn. *)
Definition chat_payload : pyval :=
  PDict [("input_data",
          PDict [("input_string",
                  PList [Spec.to_py (Spec.mkTurn Spec.User " Hi ");
                         Spec.to_py (Spec.mkTurn Spec.Assistant "Hello");
                         Spec.to_py (Spec.mkTurn Spec.User "Bye")]);
                 ("parameters", PDict [("max_new_tokens", PInt 100)])])].

Definition unfinished_chat_payload : pyval :=
  PDict [("input_data",
          PDict [("input_string",
                  PList [Spec.to_py (Spec.mkTurn Spec.User "Hi");
                         Spec.to_py (Spec.mkTurn Spec.Assistant "Hello")])])].

Definition string_query : pyval :=
  PDict [("input_data", PDict [("input_string", PStr "p0"); ("parameters", PInt 3)])].

Definition chat_samples : list pyval := [chat_payload; unfinished_chat_payload; string_query].

Definition chatting : Platform :=
  machine chat_samples None (present_from 0) (Returned 200%Z) echo.

Definition ready_chatting : World (P := chatting) :=
  mkWorld (P := chatting) (Some tt) (PStr SupportedTask.CHAT_COMPLETION) O [].

(** A backend that fails on the prompt [bad] and answers the others. *)
Definition fails_on (bad : string) (q : pyval) : outcome string :=
  if eq_str q bad then Raised (OtherError "ReadTimeout" "Read timed out.") else echo q.

Definition failing_on_p1 : Platform :=
  machine samples None (present_from 0) (Returned 200%Z) (fails_on "p1").

Definition ready_failing_on_p1 : World (P := failing_on_p1) :=
  mkWorld (P := failing_on_p1) (Some tt) (PStr SupportedTask.TEXT_GENERATION) O [].

(** A machine on which the model directory cannot be listed. *)
Definition without_model_dir : Platform :=
  {| Ext := nat;
     Client := unit;
     json_loads := loads_samples samples;
     environ_get := fun _ _ => None;
     path_exists := fun _ _ => false;
     yaml_safe_load := fun _ _ =>
       Raised (OtherError "FileNotFoundError" "No such file or directory");
     os_listdir := fun _ _ =>
       Raised (OtherError "FileNotFoundError" "No such file or directory");
     os_system := fun _ x => x;
     time_sleep := fun _ x => x;
     process_names := fun x => (Returned (present_from 0 x), S x);
     requests_post := fun _ _ x => (Returned 200%Z, x);
     new_client := fun _ _ x => (Returned tt, x);
     client_generate := fun _ q _ x => (echo q, x) |}.

Definition chat_descriptor : pyval :=
  PDict [("flavors", PDict [("hftransformersv2", PDict [("task_type", PStr "chat-completion")])])].

Definition numeric_task_type : pyval :=
  PDict [("flavors", PDict [("hftransformersv2", PDict [("task_type", PInt 7)])])].

End Sim.

(** * Properties *)

(** ** Strings *)

Lemma append_assoc (a b c : string) : (a ++ b) ++ c = a ++ (b ++ c).
Proof.
  induction a as [|ch a IH]; simpl.
  - reflexivity.
  - now rewrite IH.
Qed.

Lemma append_empty_r (a : string) : a ++ "" = a.
Proof.
  induction a as [|ch a IH]; simpl; [reflexivity | now rewrite IH].
Qed.

(** ** The chat-history formatter *)

Section Flatten.
Import Spec.

Lemma parity_succ (i : nat) : Nat.eqb (S i mod 2) 0 = negb (Nat.eqb (i mod 2) 0).
Proof.
  replace (S i) with (i + 1) by lia.
  rewrite Nat.Div0.add_mod.
  pose proof (Nat.mod_upper_bound i 2 ltac:(lia)) as Hb.
  destruct (i mod 2) as [|[|k]] eqn:E; [reflexivity | reflexivity | lia].
Qed.

Lemma role_of_turn (turn : ChatTurn) :
  subscript (to_py turn) "role" = Returned (PStr (role_name (role turn))).
Proof. reflexivity. Qed.

Lemma content_of_turn (turn : ChatTurn) :
  subscript (to_py turn) "content" = Returned (PStr (content turn)).
Proof. reflexivity. Qed.

Lemma flatten_cons (turn : ChatTurn) (rest : Transcript) :
  flatten (turn :: rest) = render turn ++ flatten rest.
Proof. reflexivity. Qed.

(** The loop on turns that alternate as the index asks. *)
Lemma chat_turns_alternating (rest : Transcript) :
  forall (i : nat) (history : string),
    alternates (Nat.eqb (i mod 2) 0) rest = true ->
    chat_turns i (map to_py rest) history = Returned (history ++ flatten rest).
Proof.
  induction rest as [|turn rest IH]; intros i history Halt.
  - simpl. now rewrite append_empty_r.
  - cbn [map chat_turns]. cbn [alternates] in Halt.
    apply andb_true_iff in Halt as [Hturn Hrest].
    rewrite <- parity_succ in Hrest.
    rewrite role_of_turn, content_of_turn, flatten_cons.
    destruct (Nat.eqb (i mod 2) 0); destruct turn as [[|] text];
      try discriminate Hturn; unfold render; cbn [role content role_name strip obind].
    + change (eq_str (PStr "assistant") "assistant") with true.
      cbn [assert obind]. rewrite (IH _ _ Hrest). now rewrite !append_assoc.
    + change (eq_str (PStr "user") "user") with true.
      cbn [assert obind]. rewrite (IH _ _ Hrest). now rewrite !append_assoc.
Qed.

(** The loop on turns that do not: the assertion of the first turn out
    of place is the one that fails. *)
Lemma chat_turns_out_of_turn (rest : Transcript) :
  forall (i : nat) (history : string),
    alternates (Nat.eqb (i mod 2) 0) rest = false ->
    chat_turns i (map to_py rest) history = Raised (AssertionError "").
Proof.
  induction rest as [|turn rest IH]; intros i history Halt.
  - discriminate Halt.
  - cbn [map chat_turns]. cbn [alternates] in Halt.
    rewrite <- parity_succ in Halt.
    rewrite role_of_turn, content_of_turn.
    destruct (Nat.eqb (i mod 2) 0); destruct turn as [[|] text];
      cbn in Halt |- *; try reflexivity; now apply IH.
Qed.

Lemma last_to_py (t : Transcript) (first : ChatTurn) :
  last (map to_py t) (to_py first) = to_py (last t first).
Proof.
  induction t as [|a t IH]; [reflexivity|].
  destruct t as [|b t]; [reflexivity|].
  change (last (map to_py (b :: t)) (to_py first) = to_py (last (b :: t) first)).
  exact IH.
Qed.

End Flatten.

Section FlattenProperties.
Import Spec.

Lemma flatten_code_unfold (first : ChatTurn) (rest : Transcript) :
  get_processed_input_data_for_chat_completion (map to_py (first :: rest)) =
  if is_user first then
    if is_user (last (first :: rest) first) then
      chat_turns 0 (map to_py rest) (B_INST ++ str_strip (content first) ++ E_INST)
    else Raised (AssertionError "")
  else Raised (AssertionError "").
Proof.
  unfold get_processed_input_data_for_chat_completion.
  cbn [map length Nat.ltb Nat.leb assert obind].
  change (last (to_py first :: map to_py rest) (to_py first))
    with (last (map to_py (first :: rest)) (to_py first)).
  rewrite last_to_py, !role_of_turn, content_of_turn.
  unfold is_user.
  destruct first as [[|] text]; cbn [role content role_name obind strip].
  - change (eq_str (PStr "user") "user") with true. cbn [assert obind].
    destruct (role (last (mkTurn User text :: rest) (mkTurn User text)));
      reflexivity.
  - reflexivity.
Qed.

(** C4.  On a transcript that is non-empty, starts and ends with a User
    turn and alternates strictly after the first turn, the formatter
    returns the concatenation, in turn order, of [[INST]c[/INST]] for
    each User turn and [c] followed by a newline for each Assistant turn,
    where [c] is the trimmed content of the turn. *)
Theorem flatten_valid_transcript (t : Transcript) :
  alternation_invariant t = true ->
  get_processed_input_data_for_chat_completion (map to_py t) = Returned (flatten t).
Proof.
  intros Hinv. unfold alternation_invariant in Hinv.
  apply andb_true_iff in Hinv as [Hinv Halt].
  apply andb_true_iff in Hinv as [Hfirst Hlast].
  destruct t as [|first rest]; [discriminate Hfirst|].
  cbn [first_is_user last_is_user tl] in *.
  rewrite flatten_code_unfold, Hfirst, Hlast.
  rewrite (chat_turns_alternating rest 0 _ Halt).
  rewrite flatten_cons. unfold render, is_user in *.
  destruct (role first); [|discriminate Hfirst].
  now rewrite !append_assoc.
Qed.

(** The two transcripts the specification gives, through the theorem. *)
Lemma flatten_valid_transcript_witness :
  (alternation_invariant [mkTurn User "A"] = true /\
   get_processed_input_data_for_chat_completion (map to_py [mkTurn User "A"])
   = Returned "[INST]A[/INST]") /\
  (alternation_invariant [mkTurn User "A"; mkTurn Assistant "B"; mkTurn User "C"] = true /\
   get_processed_input_data_for_chat_completion
     (map to_py [mkTurn User "A"; mkTurn Assistant "B"; mkTurn User "C"])
   = Returned ("[INST]A[/INST]B" ++ LF ++ "[INST]C[/INST]")).
Proof.
  split; split.
  - reflexivity.
  - apply (flatten_valid_transcript [mkTurn User "A"]). reflexivity.
  - reflexivity.
  - apply (flatten_valid_transcript
             [mkTurn User "A"; mkTurn Assistant "B"; mkTurn User "C"]).
    reflexivity.
Defined.

(** C5.  On a transcript that is empty, or whose first turn is not User,
    or whose last turn is not User, or whose turns after the first do not
    alternate Assistant, User, Assistant, ..., the formatter fails, with
    the [AssertionError] of a bare [assert]. *)
Theorem flatten_invalid_transcript (t : Transcript) :
  t = [] \/ first_is_user t = false \/ last_is_user t = false
    \/ alternates true (tl t) = false ->
  get_processed_input_data_for_chat_completion (map to_py t) = Raised (AssertionError "").
Proof.
  intros Hbad.
  destruct t as [|first rest]; [reflexivity|].
  rewrite flatten_code_unfold.
  cbn [first_is_user last_is_user tl] in Hbad.
  destruct (is_user first); [|reflexivity].
  destruct (is_user (last (first :: rest) first)); [|reflexivity].
  destruct Hbad as [H | [H | [H | H]]]; try discriminate H.
  now apply chat_turns_out_of_turn.
Qed.

Lemma flatten_invalid_transcript_witness :
  first_is_user [mkTurn Assistant "A"] = false /\
  get_processed_input_data_for_chat_completion (map to_py [mkTurn Assistant "A"])
  = Raised (AssertionError "").
Proof.
  split.
  - reflexivity.
  - apply (flatten_invalid_transcript [mkTurn Assistant "A"]).
    right; left; reflexivity.
Defined.

End FlattenProperties.

(** ** The request parser *)

Section Parser.
Context {P : Platform}.
Import Spec.

(** The parser reads the globals and touches nothing. *)
Lemma get_request_data_keeps_world (raw : string) (w : World) :
  snd (get_request_data raw w) = w.
Proof.
  unfold get_request_data, try_except, bind, lift, read, raise, ret.
  destruct (json_loads raw) as [data|e]; [|reflexivity].
  destruct (get data "input_data" PNone) as [inputs|e]; [|reflexivity].
  destruct (is_dict inputs); [|reflexivity]. cbn [negb].
  destruct (subscript inputs "input_string") as [input_data|e]; [|reflexivity].
  destruct (get inputs "parameters" (PDict [])) as [params|e]; [|reflexivity].
  destruct input_data; try reflexivity.
  destruct params; try reflexivity.
  destruct (eq_str (task_type w) SupportedTask.CHAT_COMPLETION); [|reflexivity].
  destruct (get_processed_input_data_for_chat_completion items); reflexivity.
Qed.

(** Whatever goes wrong inside, what leaves the parser is an [Exception]
    whose message is the serialised payload. *)
Lemma get_request_data_raises (raw : string) (w : World) (e : exn) :
  fst (get_request_data raw w) = Raised e ->
  exists inner, e = Exception (parse_error_payload inner).
Proof.
  unfold get_request_data, try_except, bind, lift, read, raise, ret.
  destruct (json_loads raw) as [data|e0]; [|intros [= <-]; eauto].
  destruct (get data "input_data" PNone) as [inputs|e0]; [|intros [= <-]; eauto].
  destruct (is_dict inputs); cbn [negb]; [|intros [= <-]; eauto].
  destruct (subscript inputs "input_string") as [input_data|e0]; [|intros [= <-]; eauto].
  destruct (get inputs "parameters" (PDict [])) as [params|e0]; [|intros [= <-]; eauto].
  destruct input_data; try (intros [= <-]; eauto).
  destruct params; try (intros [= <-]; eauto).
  destruct (eq_str (task_type w) SupportedTask.CHAT_COMPLETION); [|discriminate].
  destruct (get_processed_input_data_for_chat_completion items);
    [discriminate | intros [= <-]; eauto].
Qed.

Lemma get_request_data_returns (raw : string) (w : World)
    (r : outcome (pyval * list (string * pyval))) :
  fst (get_request_data raw w) = r -> get_request_data raw w = (r, w).
Proof.
  intros <-. rewrite <- (get_request_data_keeps_world raw w) at 3.
  now destruct (get_request_data raw w).
Qed.

Lemma get_request_data_cases (raw : string) (w : World) :
  (exists query params, get_request_data raw w = (Returned (query, params), w)) \/
  (exists inner, get_request_data raw w = (Raised (Exception (parse_error_payload inner)), w)).
Proof.
  pose proof (get_request_data_keeps_world raw w) as Hw.
  pose proof (get_request_data_raises raw w) as He.
  destruct (get_request_data raw w) as [[[query params]|e] w1]; cbn in Hw; subst w1.
  - left; eauto.
  - right. destruct (He e eq_refl) as [inner ->]. eauto.
Qed.

(** C6.  When the parsed document is not an object, or its [input_data]
    is missing or not an object, or its [input_string] is missing or not
    a sequence, or its [parameters] is present and not a mapping, the
    parser fails, and the message of what it raises is the JSON object
    holding the fixed usage hint under ["error"] and the message of the
    underlying exception under ["exception"]. *)
Theorem get_request_data_malformed (raw : string) (data : pyval) (w : World) :
  json_loads raw = Returned data ->
  top_not_object data = true
    \/ input_data_missing_or_not_object data = true
    \/ input_string_missing_or_not_sequence data = true
    \/ parameters_present_not_mapping data = true ->
  exists inner,
    get_request_data raw w
    = (Raised (Exception (Json.dumps (PDict [("error", PStr usage_hint);
                                             ("exception", PStr (str_exn inner))]))), w)
    /\ (inner = no_attribute data "get"
        \/ inner = Exception "Invalid input data"
        \/ inner = KeyError "input_string"
        \/ inner = Exception "query is not a list"
        \/ inner = Exception "parameters is not a dict").
Proof.
  intros Hloads Hbad.
  unfold get_request_data, try_except, bind, lift, read, raise, ret.
  rewrite Hloads.
  unfold top_not_object, input_data_missing_or_not_object,
    input_string_missing_or_not_sequence, parameters_present_not_mapping in Hbad.
  destruct data as [ |b|n|r|s|items|top];
    try (eexists; split; [reflexivity | now left]).
  cbn [is_dict negb get] in *.
  destruct (lookup "input_data" top) as [inputs|];
    [|exists (Exception "Invalid input data"); split; [reflexivity | tauto]].
  destruct inputs as [ |b|n|r|s|items|inputs];
    try (exists (Exception "Invalid input data"); split; [reflexivity | tauto]).
  cbn [is_dict negb subscript get].
  destruct (lookup "input_string" inputs) as [input_data|];
    [|exists (KeyError "input_string"); split; [reflexivity | tauto]].
  destruct (lookup "parameters" inputs) as [params|].
  - destruct input_data;
      try (exists (Exception "query is not a list"); split; [reflexivity | tauto]).
    destruct params;
      try (exists (Exception "parameters is not a dict"); split; [reflexivity | tauto]).
    exfalso. destruct Hbad as [H | [H | [H | H]]]; discriminate H.
  - destruct input_data;
      try (exists (Exception "query is not a list"); split; [reflexivity | tauto]).
    exfalso. destruct Hbad as [H | [H | [H | H]]]; discriminate H.
Qed.

End Parser.

Lemma get_request_data_malformed_witness :
  json_loads (Platform := Sim.serving) (Json.dumps Sim.foo_payload) = Returned Sim.foo_payload /\
  Spec.input_data_missing_or_not_object Sim.foo_payload = true /\
  exists inner,
    get_request_data (P := Sim.serving) (Json.dumps Sim.foo_payload) Sim.ready
    = (Raised (Exception (Json.dumps (PDict [("error", PStr usage_hint);
                                             ("exception", PStr (str_exn inner))]))),
       Sim.ready)
    /\ (inner = no_attribute Sim.foo_payload "get"
        \/ inner = Exception "Invalid input data"
        \/ inner = KeyError "input_string"
        \/ inner = Exception "query is not a list"
        \/ inner = Exception "parameters is not a dict").
Proof.
  split; [reflexivity|]. split; [reflexivity|].
  apply (get_request_data_malformed (P := Sim.serving)
           (Json.dumps Sim.foo_payload) Sim.foo_payload Sim.ready).
  - reflexivity.
  - right; left; reflexivity.
Defined.

(** ** The dispatcher *)

Section Dispatcher.
Context {P : Platform}.
Import Spec.

Lemma after_no_call (w : World) : after_calls w (ext w) [] = w.
Proof. destruct w; unfold after_calls; cbn. now rewrite app_nil_r. Qed.

(** The loop, when the backend answers every prompt. *)
Lemma generate_each_answers (c : Client) (params : list (string * pyval))
    (prompts : list pyval) :
  forall (i : nat) (results : list pyval) (w : World) (texts : list string) (x' : Ext),
    ask_all c params prompts (ext w) = (Returned texts, x') ->
    generate_each c i prompts params results w
    = (Returned (results ++ numbered i texts)%list,
       after_calls w x' (map (fun q => Generated q params) prompts)).
Proof.
  induction prompts as [|q rest IH]; intros i results w texts x' Hask.
  - cbn in Hask. injection Hask as <- <-.
    cbn. now rewrite app_nil_r, after_no_call.
  - cbn [ask_all] in Hask. cbn [generate_each].
    unfold bind at 1. unfold generate at 1.
    destruct (client_generate c q params (ext w)) as [[t|e] x1]; [|discriminate Hask].
    destruct (ask_all c params rest x1) as [[ts|e] x2] eqn:Hrest; [|discriminate Hask].
    injection Hask as <- <-.
    rewrite (IH (S i) _ (step x1 (Generated q params) w) ts x2 Hrest).
    unfold after_calls, step. cbn [client task_type ext trace map numbered].
    now rewrite <- !app_assoc.
Qed.

(** The loop in general: it returns numbered texts after what it was
    given, or raises. *)
Lemma generate_each_shape (c : Client) (params : list (string * pyval))
    (prompts : list pyval) :
  forall (i : nat) (results : list pyval) (w : World),
    (exists texts w', generate_each c i prompts params results w
                      = (Returned (results ++ numbered i texts)%list, w')) \/
    (exists e w', generate_each c i prompts params results w = (Raised e, w')).
Proof.
  induction prompts as [|q rest IH]; intros i results w.
  - left. exists [], w. cbn. now rewrite app_nil_r.
  - cbn [generate_each]. unfold bind.
    destruct (generate c q params w) as [[t|e] w1]; [|right; eauto].
    destruct (IH (S i) (results ++ [PDict [(str_of_nat i, PStr t)]])%list w1)
      as [(ts & w2 & H) | (e & w2 & H)]; rewrite H.
    + left. exists (t :: ts), w2. cbn [numbered]. now rewrite <- app_assoc.
    + right; eauto.
Qed.

Lemma run_body_uninitialized (raw : string) (w : World) :
  client w = None ->
  run_body raw w = (Raised (Exception "Client is not initialized"), w).
Proof.
  intros Hc. unfold run_body, bind, read. now rewrite Hc.
Qed.

Lemma run_body_parse_error (raw : string) (w : World) (c : Client) (e : exn) (w' : World) :
  client w = Some c ->
  get_request_data raw w = (Raised e, w') ->
  run_body raw w = (Raised e, w').
Proof.
  intros Hc Hparse. unfold run_body, bind at 1, read. rewrite Hc.
  unfold bind at 1. now rewrite Hparse.
Qed.

Lemma run_body_text_generation (raw : string) (w : World) (c : Client)
    (prompts : list pyval) (params : list (string * pyval)) :
  client w = Some c ->
  task_type w = PStr SupportedTask.TEXT_GENERATION ->
  get_request_data raw w = (Returned (PList prompts, params), w) ->
  run_body raw w
  = (results <- generate_each c 0 prompts params [] ;; ret (Json.dumps (PList results))) w.
Proof.
  intros Hc Ht Hparse. unfold run_body, bind at 1, read. rewrite Hc.
  unfold bind at 1. rewrite Hparse. cbn beta iota.
  unfold bind at 1. rewrite Ht. reflexivity.
Qed.

End Dispatcher.

Section DispatcherProperties.
Context {P : Platform}.
Import Spec.

Lemma ask_all_length (c : Client) (params : list (string * pyval)) (prompts : list pyval) :
  forall (x : Ext) (texts : list string) (x' : Ext),
    ask_all c params prompts x = (Returned texts, x') -> length texts = length prompts.
Proof.
  induction prompts as [|q rest IH]; intros x texts x' Hask; cbn in Hask.
  - now injection Hask as <- _.
  - destruct (client_generate c q params x) as [[t|e] x1]; [|discriminate Hask].
    destruct (ask_all c params rest x1) as [[ts|e] x2] eqn:Hrest; [|discriminate Hask].
    injection Hask as <- _. cbn. f_equal. eauto.
Qed.

Lemma numbered_nth (texts : list string) :
  forall (k i : nat) (t : string),
    nth_error texts i = Some t ->
    nth_error (numbered k texts) i = Some (PDict [(str_of_nat (k + i), PStr t)]).
Proof.
  induction texts as [|t0 rest IH]; intros k i t Hnth.
  - destruct i; discriminate Hnth.
  - destruct i as [|i]; cbn in Hnth |- *.
    + injection Hnth as ->. now rewrite Nat.add_0_r.
    + rewrite (IH (S k) i t Hnth). now replace (k + S i) with (S k + i) by lia.
Qed.

(** The loop stops at the first prompt the backend fails on. *)
Lemma generate_each_raises (c : Client) (params : list (string * pyval))
    (prompts : list pyval) :
  forall (i : nat) (results : list pyval) (w : World) (e : exn) (x' : Ext),
    ask_all c params prompts (ext w) = (Raised e, x') ->
    exists w', generate_each c i prompts params results w = (Raised e, w').
Proof.
  induction prompts as [|q rest IH]; intros i results w e x' Hask.
  - discriminate Hask.
  - cbn [ask_all] in Hask. cbn [generate_each]. unfold bind at 1, generate at 1.
    destruct (client_generate c q params (ext w)) as [[t|e0] x1].
    + destruct (ask_all c params rest x1) as [[ts|e1] x2] eqn:Hrest; [discriminate Hask|].
      injection Hask as <- <-.
      apply (IH (S i) _ (step x1 (Generated q params) w) e1 x2). exact Hrest.
    + injection Hask as <- <-. eauto.
Qed.

(** Whether the backend answers or not, the calls the loop makes are
    those for the first [k] prompts, in input order. *)
Lemma generate_each_calls_in_order (c : Client) (params : list (string * pyval))
    (prompts : list pyval) :
  forall (i : nat) (results : list pyval) (w : World),
    exists k,
      k <= length prompts /\
      trace (snd (generate_each c i prompts params results w))
      = (trace w ++ map (fun q => Generated q params) (firstn k prompts))%list.
Proof.
  induction prompts as [|q rest IH]; intros i results w.
  - exists 0. split; [reflexivity|]. cbn. now rewrite app_nil_r.
  - cbn [generate_each]. unfold bind at 1, generate at 1.
    destruct (client_generate c q params (ext w)) as [[t|e] x1].
    + destruct (IH (S i) (results ++ [PDict [(str_of_nat i, PStr t)]])%list
                  (step x1 (Generated q params) w)) as (k & Hk & ->).
      exists (S k). split; [cbn; lia|].
      cbn [step trace firstn map]. now rewrite <- app_assoc.
    + exists 1. split; [cbn; lia|]. reflexivity.
Qed.

(** Every response has one of the three shapes of the wire format. *)
Lemma run_response (raw : string) (w : World) :
  exists out w', run raw w = (Returned out, w') /\ response out.
Proof.
  unfold run, try_except.
  destruct (run_body raw w) as [[out|e] w1] eqn:Hbody;
    [|exists (error_envelope e), w1; split; [reflexivity | constructor]].
  exists out, w1. split; [reflexivity|].
  unfold run_body, bind at 1, read in Hbody.
  destruct (client w) as [c|]; [|discriminate Hbody].
  unfold bind at 1 in Hbody.
  destruct (get_request_data_cases raw w) as [(query & params & Hg) | (inner & Hg)];
    rewrite Hg in Hbody; [|discriminate Hbody].
  cbn beta iota in Hbody. unfold bind at 1 in Hbody.
  destruct (eq_str (task_type w) SupportedTask.CHAT_COMPLETION).
  - unfold bind in Hbody.
    destruct (generate c query params w) as [[text|e] w2]; [|discriminate Hbody].
    injection Hbody as <- _. constructor.
  - destruct (eq_str (task_type w) SupportedTask.TEXT_GENERATION); [|discriminate Hbody].
    destruct query as [ |b|n|r|s|prompts|items]; try discriminate Hbody.
    unfold bind in Hbody.
    destruct (generate_each_shape c params prompts 0 [] w)
      as [(texts & w2 & H) | (e & w2 & H)]; rewrite H in Hbody; [|discriminate Hbody].
    injection Hbody as <- _. constructor.
Qed.

(** C1.  With an initialised client and task type text-generation, when
    the request parses to the prompt list [prompts] and the parameters
    [params], and the backend asked the prompts one after the other
    answers [texts], [run] makes exactly the calls [generate(q, **params)]
    for [q] in [prompts], in that order, and returns the serialised list
    whose element [i] is the object with the single key [str(i)] and the
    text generated for prompt [i]. *)
Theorem run_text_generation (raw : string) (w : World) (c : Client)
    (prompts : list pyval) (params : list (string * pyval))
    (texts : list string) (x' : Ext) :
  client w = Some c ->
  task_type w = PStr SupportedTask.TEXT_GENERATION ->
  fst (get_request_data raw w) = Returned (PList prompts, params) ->
  ask_all c params prompts (ext w) = (Returned texts, x') ->
  run raw w
  = (Returned (Json.dumps (PList (numbered 0 texts))),
     after_calls w x' (map (fun q => Generated q params) prompts))
  /\ length texts = length prompts
  /\ (forall i t, nth_error texts i = Some t ->
        nth_error (numbered 0 texts) i = Some (PDict [(str_of_nat i, PStr t)])).
Proof.
  intros Hc Ht Hparse Hask. split; [|split].
  - pose proof (get_request_data_returns raw w _ Hparse) as Hg.
    unfold run, try_except.
    rewrite (run_body_text_generation raw w c prompts params Hc Ht Hg).
    unfold bind. rewrite (generate_each_answers c params prompts 0 [] w texts x' Hask).
    reflexivity.
  - eapply ask_all_length; eassumption.
  - intros i t Hnth. exact (numbered_nth texts 0 i t Hnth).
Qed.

(** C2.  [run] returns a string and never raises: whatever the [try]
    suite raises comes back as the JSON object with the keys ["error"]
    and ["exception"], and so does an exception of the backend, in a
    chat-completion call or at any prompt of a text-generation batch. *)
Theorem run_never_raises (raw : string) (w : World) :
  (exists out w', run raw w = (Returned out, w')) /\
  (forall e w',
     run_body raw w = (Raised e, w') ->
     run raw w
     = (Returned (Json.dumps (PDict [("error", PStr "Error in processing request");
                                     ("exception", PStr (str_exn e))])), w')) /\
  (forall c prompts params e x',
     client w = Some c ->
     task_type w = PStr SupportedTask.TEXT_GENERATION ->
     fst (get_request_data raw w) = Returned (PList prompts, params) ->
     ask_all c params prompts (ext w) = (Raised e, x') ->
     fst (run raw w)
     = Returned (Json.dumps (PDict [("error", PStr "Error in processing request");
                                    ("exception", PStr (str_exn e))]))) /\
  (forall c query params e x',
     client w = Some c ->
     task_type w = PStr SupportedTask.CHAT_COMPLETION ->
     fst (get_request_data raw w) = Returned (query, params) ->
     client_generate c query params (ext w) = (Raised e, x') ->
     fst (run raw w)
     = Returned (Json.dumps (PDict [("error", PStr "Error in processing request");
                                    ("exception", PStr (str_exn e))]))).
Proof.
  split; [|split; [|split]].
  - unfold run, try_except.
    destruct (run_body raw w) as [[out|e] w1]; unfold ret; eauto.
  - intros e w' Hbody. unfold run, try_except. now rewrite Hbody.
  - intros c prompts params e x' Hc Ht Hparse Hask.
    pose proof (get_request_data_returns raw w _ Hparse) as Hg.
    unfold run, try_except.
    rewrite (run_body_text_generation raw w c prompts params Hc Ht Hg).
    unfold bind.
    destruct (generate_each_raises c params prompts 0 [] w e x' Hask) as [w' ->].
    reflexivity.
  - intros c query params e x' Hc Ht Hparse Hgen.
    pose proof (get_request_data_returns raw w _ Hparse) as Hg.
    unfold run, try_except, run_body, bind at 1, read. rewrite Hc.
    unfold bind at 1. rewrite Hg. cbn beta iota.
    unfold bind at 1. rewrite Ht.
    change (eq_str (PStr SupportedTask.CHAT_COMPLETION) SupportedTask.CHAT_COMPLETION)
      with true. cbn iota.
    unfold bind, generate. rewrite Hgen. reflexivity.
Qed.

(** C3, as the script has it.  With an initialised client, when the
    parser fails, [run] answers with its own envelope: ["error"] is
    ["Error in processing request"], and ["exception"] holds, as one
    string, the payload the parser serialised.  Nothing outside is
    touched. *)
Theorem run_wraps_parse_error (raw : string) (w : World) (c : Client) (e : exn) :
  client w = Some c ->
  fst (get_request_data raw w) = Raised e ->
  exists inner,
    e = Exception (parse_error_payload inner) /\
    run raw w
    = (Returned (Json.dumps (PDict [("error", PStr "Error in processing request");
                                    ("exception", PStr (parse_error_payload inner))])), w).
Proof.
  intros Hc Hparse.
  destruct (get_request_data_raises raw w e Hparse) as [inner ->].
  exists inner. split; [reflexivity|].
  pose proof (get_request_data_returns raw w _ Hparse) as Hg.
  unfold run, try_except.
  now rewrite (run_body_parse_error raw w c _ w Hc Hg).
Qed.

(** C7.  Before [init] has set the client, [run] answers
    [{"error": "Error in processing request", "exception": "Client is not initialized"}]
    whatever the payload, and leaves the world as it was: no call to the
    backend, no other effect. *)
Theorem run_before_init (raw : string) (w : World) :
  client w = None ->
  run raw w
  = (Returned ("{" ++ quoted "error" ++ ": " ++ quoted "Error in processing request" ++ ", "
                   ++ quoted "exception" ++ ": " ++ quoted "Client is not initialized" ++ "}"),
     w).
Proof.
  intros Hc. unfold run, try_except.
  now rewrite (run_body_uninitialized raw w Hc).
Qed.

(** C10.  With an initialised client and task type text-generation, a
    request whose [input_string] is the empty list (its [parameters]
    absent or a mapping) is answered with the empty JSON array, and the
    backend is not called. *)
Theorem run_empty_input_string (raw : string) (w : World) (c : Client)
    (top inputs : list (string * pyval)) :
  client w = Some c ->
  task_type w = PStr SupportedTask.TEXT_GENERATION ->
  json_loads raw = Returned (PDict top) ->
  lookup "input_data" top = Some (PDict inputs) ->
  lookup "input_string" inputs = Some (PList []) ->
  lookup "parameters" inputs = None
    \/ (exists kwargs, lookup "parameters" inputs = Some (PDict kwargs)) ->
  run raw w = (Returned "[]", w).
Proof.
  intros Hc Ht Hloads Hdata Hstring Hparams.
  assert (Hg : exists params, get_request_data raw w = (Returned (PList [], params), w)).
  { unfold get_request_data, try_except, bind, lift, read, raise, ret.
    rewrite Hloads. cbn [get]. rewrite Hdata. cbn [is_dict negb subscript get].
    rewrite Hstring.
    destruct Hparams as [-> | [kwargs ->]]; rewrite Ht; eexists; reflexivity. }
  destruct Hg as [params Hg].
  unfold run, try_except.
  rewrite (run_body_text_generation raw w c [] params Hc Ht Hg).
  reflexivity.
Qed.

End DispatcherProperties.

(** ** The dispatcher on the simulated machine *)

Lemma run_text_generation_witness :
  fst (get_request_data (P := Sim.serving) (Json.dumps Sim.two_prompts) Sim.ready)
  = Returned (PList [PStr "p0"; PStr "p1"],
              [("max_new_tokens", PInt 100); ("do_sample", PBool true)]) /\
  run (P := Sim.serving) (Json.dumps Sim.two_prompts) Sim.ready
  = (Returned ("[{" ++ quoted "0" ++ ": " ++ quoted "re: p0" ++ "}, {"
                    ++ quoted "1" ++ ": " ++ quoted "re: p1" ++ "}]"),
     after_calls (P := Sim.serving) Sim.ready O
       [Generated (PStr "p0") [("max_new_tokens", PInt 100); ("do_sample", PBool true)];
        Generated (PStr "p1") [("max_new_tokens", PInt 100); ("do_sample", PBool true)]]).
Proof.
  split; [reflexivity|].
  apply (run_text_generation (P := Sim.serving)
           (Json.dumps Sim.two_prompts) Sim.ready tt
           [PStr "p0"; PStr "p1"]
           [("max_new_tokens", PInt 100); ("do_sample", PBool true)]
           ["re: p0"; "re: p1"] O); reflexivity.
Defined.

Lemma run_never_raises_witness :
  ask_all (P := Sim.timing_out) tt [("max_new_tokens", PInt 100); ("do_sample", PBool true)]
    [PStr "p0"; PStr "p1"] O
  = (Raised (OtherError "ReadTimeout" "Read timed out."), O) /\
  fst (run (P := Sim.timing_out) (Json.dumps Sim.two_prompts) Sim.ready_timing_out)
  = Returned ("{" ++ quoted "error" ++ ": " ++ quoted "Error in processing request" ++ ", "
                  ++ quoted "exception" ++ ": " ++ quoted "Read timed out." ++ "}").
Proof.
  split; [reflexivity|].
  apply (proj1 (proj2 (proj2 (run_never_raises (P := Sim.timing_out)
                                (Json.dumps Sim.two_prompts) Sim.ready_timing_out)))
           tt [PStr "p0"; PStr "p1"]
           [("max_new_tokens", PInt 100); ("do_sample", PBool true)]
           (OtherError "ReadTimeout" "Read timed out.") O); reflexivity.
Defined.

(** C3, as the specification has it, fails: on [{"foo": 1}] the parser
    raises its payload, and what [run] returns is not that payload. *)
Lemma run_parse_error_not_verbatim :
  exists payload,
    fst (get_request_data (P := Sim.serving) (Json.dumps Sim.foo_payload) Sim.ready)
    = Raised (Exception payload) /\
    fst (run (P := Sim.serving) (Json.dumps Sim.foo_payload) Sim.ready) <> Returned payload.
Proof.
  eexists. split; [reflexivity|].
  vm_compute. intros H. discriminate H.
Qed.

Lemma run_wraps_parse_error_witness :
  fst (get_request_data (P := Sim.serving) (Json.dumps Sim.foo_payload) Sim.ready)
  = Raised (Exception (parse_error_payload (Exception "Invalid input data"))) /\
  exists inner,
    Exception (parse_error_payload (Exception "Invalid input data"))
    = Exception (parse_error_payload inner) /\
    run (P := Sim.serving) (Json.dumps Sim.foo_payload) Sim.ready
    = (Returned (Json.dumps (PDict [("error", PStr "Error in processing request");
                                    ("exception", PStr (parse_error_payload inner))])),
       Sim.ready).
Proof.
  split; [reflexivity|].
  apply (run_wraps_parse_error (P := Sim.serving)
           (Json.dumps Sim.foo_payload) Sim.ready tt); reflexivity.
Defined.

Lemma run_before_init_witness :
  run (P := Sim.serving) (Json.dumps Sim.two_prompts) (initial_world (P := Sim.serving) O)
  = (Returned ("{" ++ quoted "error" ++ ": " ++ quoted "Error in processing request" ++ ", "
                   ++ quoted "exception" ++ ": " ++ quoted "Client is not initialized" ++ "}"),
     initial_world (P := Sim.serving) O).
Proof.
  apply (run_before_init (P := Sim.serving)
           (Json.dumps Sim.two_prompts) (initial_world (P := Sim.serving) O)).
  reflexivity.
Defined.

Lemma run_empty_input_string_witness :
  json_loads (Platform := Sim.serving) (Json.dumps Sim.no_prompts) = Returned Sim.no_prompts /\
  run (P := Sim.serving) (Json.dumps Sim.no_prompts) Sim.ready = (Returned "[]", Sim.ready).
Proof.
  split; [reflexivity|].
  apply (run_empty_input_string (P := Sim.serving)
           (Json.dumps Sim.no_prompts) Sim.ready tt
           [("input_data", PDict [("input_string", PList [])])]
           [("input_string", PList [])]); try reflexivity.
  left; reflexivity.
Defined.

(** ** The liveness check *)

Section Liveness.
Context {P : Platform}.

(** One turn of the [while] loop. *)
Lemma while_not_running_turn (count : nat) (w : World) :
  while_not_running count w =
  if (count <? RETRY_COUNT)%nat then
    match process_iter_names w with
    | (Returned names, w1) =>
        if launcher_in names then (Returned count, w1)
        else while_not_running (S count) (snd (sleep WAIT_TIME w1))
    | (Raised e, w1) => (Raised e, w1)
    end
  else (Returned count, w).
Proof.
  simp while_not_running.
  destruct (lt_dec count RETRY_COUNT) as [Hlt|Hge]; simp while_not_running.
  - rewrite (proj2 (Nat.ltb_lt _ _) Hlt).
    destruct (process_iter_names w) as [[names|e] w1]; simp while_not_running.
    + unfold launcher_in.
      destruct (existsb (String.eqb TEXT_GEN_LAUNCHER_PROCESS_NAME) names);
        simp while_not_running; reflexivity.
    + reflexivity.
  - rewrite (proj2 (Nat.ltb_nlt _ _) Hge). reflexivity.
Qed.

Lemma after_attempt (w : World) (x1 x' : Ext) (events : list event) :
  after_calls (snd (sleep WAIT_TIME (step x1 Polled w))) x' events
  = after_calls w x' (Polled :: Slept WAIT_TIME :: events).
Proof.
  unfold after_calls, sleep, step. cbn [snd client task_type ext trace].
  now rewrite <- !app_assoc.
Qed.

(** The loop when the remaining attempts all miss the process: it runs
    them all and leaves with [count = RETRY_COUNT]. *)
Lemma while_not_running_never_found (n : nat) :
  forall (count : nat) (w : World),
    count + n = RETRY_COUNT ->
    never_found n (ext w) = true ->
    exists x', while_not_running count w
               = (Returned RETRY_COUNT, after_calls w x' (attempts n)).
Proof.
  induction n as [|n IH]; intros count w Hcount Hnever; rewrite while_not_running_turn.
  - rewrite Nat.add_0_r in Hcount. subst count. rewrite Nat.ltb_irrefl.
    exists (ext w). now rewrite after_no_call.
  - rewrite (proj2 (Nat.ltb_lt count RETRY_COUNT) ltac:(lia)).
    cbn [never_found] in Hnever. unfold process_iter_names.
    destruct (process_names (ext w)) as [[names|e] x1]; [|discriminate Hnever].
    apply andb_true_iff in Hnever as [Hmiss Hnever].
    apply negb_true_iff in Hmiss. rewrite Hmiss.
    destruct (IH (S count) (snd (sleep WAIT_TIME (step x1 Polled w))) ltac:(lia) Hnever)
      as [x' ->].
    exists x'. now rewrite after_attempt.
Qed.

(** The loop when one of the remaining attempts finds the process: it
    leaves with [count] below [RETRY_COUNT]. *)
Lemma while_not_running_found (n : nat) :
  forall (count : nat) (w : World),
    count + n = RETRY_COUNT ->
    found_within n (ext w) = true ->
    exists k w', while_not_running count w = (Returned k, w') /\ k < RETRY_COUNT.
Proof.
  induction n as [|n IH]; intros count w Hcount Hfound; [discriminate Hfound|].
  rewrite while_not_running_turn.
  rewrite (proj2 (Nat.ltb_lt count RETRY_COUNT) ltac:(lia)).
  cbn [found_within] in Hfound. unfold process_iter_names.
  destruct (process_names (ext w)) as [[names|e] x1]; [|discriminate Hfound].
  destruct (launcher_in names).
  - exists count, (step x1 Polled w). split; [reflexivity | lia].
  - cbn [orb] in Hfound.
    apply (IH (S count) (snd (sleep WAIT_TIME (step x1 Polled w))) ltac:(lia) Hfound).
Qed.

Lemma slept_app (a b : list event) : slept (a ++ b) = (slept a + slept b)%Z.
Proof.
  induction a as [|ev a IH]; [reflexivity|].
  destruct ev; cbn [app slept]; rewrite IH; lia.
Qed.

Lemma polls_app (a b : list event) : polls (a ++ b) = polls a + polls b.
Proof.
  induction a as [|ev a IH]; [reflexivity|].
  destruct ev; cbn [app polls]; rewrite IH; lia.
Qed.

(** C8.  When none of the five attempts, twenty seconds apart, finds the
    launcher process, the check polls the process table exactly five
    times, sleeps twenty seconds after each poll, one hundred seconds in
    all, and raises [Sever process not running after waiting for 100.
    Terminating]; when one of the five attempts finds it, the check
    raises nothing and returns a boolean. *)
Theorem is_server_healthy_liveness (w : World) :
  (never_found RETRY_COUNT (ext w) = true ->
   exists w',
     is_server_healthy w
     = (Raised (Exception "Sever process not running after waiting for 100. Terminating"), w')
     /\ trace w' = (trace w ++ [Polled; Slept 20; Polled; Slept 20; Polled; Slept 20;
                                Polled; Slept 20; Polled; Slept 20])%list
     /\ polls (trace w') = polls (trace w) + 5
     /\ slept (trace w') = (slept (trace w) + 100)%Z) /\
  (found_within RETRY_COUNT (ext w) = true ->
   exists healthy w', is_server_healthy w = (Returned healthy, w')).
Proof.
  split.
  - intros Hnever.
    destruct (while_not_running_never_found RETRY_COUNT 0 w eq_refl Hnever) as [x' Hloop].
    exists (after_calls w x' (attempts RETRY_COUNT)).
    unfold is_server_healthy, bind at 1. rewrite Hloop.
    split; [reflexivity|]. cbn [after_calls trace].
    split; [reflexivity|].
    rewrite polls_app, slept_app. split; reflexivity.
  - intros Hfound.
    destruct (while_not_running_found RETRY_COUNT 0 w eq_refl Hfound)
      as (k & w1 & Hloop & Hk).
    unfold is_server_healthy, bind at 1. rewrite Hloop.
    rewrite (proj2 (Nat.leb_gt RETRY_COUNT k) Hk).
    unfold bind, sleep, try_except, post.
    destruct (requests_post _ _ _) as [[status_code|e] x2]; cbn [fst snd].
    + destruct ((status_code =? 200) || (status_code =? 201))%Z; unfold ret; eauto.
    + unfold ret; eauto.
Qed.

End Liveness.

Lemma is_server_healthy_liveness_witness :
  (never_found (P := Sim.never_started) RETRY_COUNT O = true /\
   exists w',
     is_server_healthy (P := Sim.never_started) (initial_world (P := Sim.never_started) O)
     = (Raised (Exception "Sever process not running after waiting for 100. Terminating"), w')
     /\ trace w' = [Polled; Slept 20; Polled; Slept 20; Polled; Slept 20;
                    Polled; Slept 20; Polled; Slept 20]
     /\ polls (trace w') = 5
     /\ slept (trace w') = 100%Z) /\
  (found_within (P := Sim.started_late) RETRY_COUNT O = true /\
   exists healthy w',
     is_server_healthy (P := Sim.started_late) (initial_world (P := Sim.started_late) O)
     = (Returned healthy, w')).
Proof.
  split; split.
  - reflexivity.
  - apply (proj1 (is_server_healthy_liveness (P := Sim.never_started)
                    (initial_world (P := Sim.never_started) O))).
    reflexivity.
  - reflexivity.
  - apply (proj2 (is_server_healthy_liveness (P := Sim.started_late)
                    (initial_world (P := Sim.started_late) O))).
    reflexivity.
Defined.

(** ** The task type at start-up *)

Section KeepsTaskType.
Context {P : Platform}.

Lemma keeps_ret {A} (a : A) : keeps_task_type (ret a).
Proof. intros w; reflexivity. Qed.

Lemma keeps_raise {A} (e : exn) : keeps_task_type (raise (A := A) e).
Proof. intros w; reflexivity. Qed.

Lemma keeps_lift {A} (c : outcome A) : keeps_task_type (lift c).
Proof. intros w; reflexivity. Qed.

Lemma keeps_read {A} (f : World -> A) : keeps_task_type (read f).
Proof. intros w; reflexivity. Qed.

Lemma keeps_bind {A B} (c : M A) (k : A -> M B) :
  keeps_task_type c -> (forall a, keeps_task_type (k a)) -> keeps_task_type (bind c k).
Proof.
  intros Hc Hk w. unfold bind. specialize (Hc w).
  destruct (c w) as [[a|e] w1]; cbn [snd] in *; [|exact Hc].
  now rewrite (Hk a w1).
Qed.

Lemma keeps_try_except {A} (body : M A) (handler : exn -> M A) :
  keeps_task_type body -> (forall e, keeps_task_type (handler e)) ->
  keeps_task_type (try_except body handler).
Proof.
  intros Hb Hh w. unfold try_except. specialize (Hb w).
  destruct (body w) as [[a|e] w1]; cbn [snd] in *; [exact Hb|].
  now rewrite (Hh e w1).
Qed.

Lemma keeps_sleep (seconds : Z) : keeps_task_type (sleep seconds).
Proof. intros w; reflexivity. Qed.

Lemma keeps_system (cmd : string) : keeps_task_type (system cmd).
Proof. intros w; reflexivity. Qed.

Lemma keeps_process_iter_names : keeps_task_type process_iter_names.
Proof. intros w. unfold process_iter_names. now destruct (process_names (ext w)). Qed.

Lemma keeps_post (url data : string) : keeps_task_type (post url data).
Proof. intros w. unfold post. now destruct (requests_post url data (ext w)). Qed.

Lemma keeps_Client_new (uri : string) (timeout : pyval) :
  keeps_task_type (Client_new uri timeout).
Proof. intros w. unfold Client_new. now destruct (new_client uri timeout (ext w)). Qed.

Lemma keeps_set_client (c : Client) : keeps_task_type (write (set_client c)).
Proof. intros w; reflexivity. Qed.

End KeepsTaskType.

Create HintDb keeps.
#[local] Hint Resolve keeps_ret keeps_raise keeps_lift keeps_read keeps_sleep keeps_system
  keeps_process_iter_names keeps_post keeps_Client_new keeps_set_client : keeps.

(** Goes through a statement built from the ones above. *)
Ltac keeps :=
  repeat first
    [ solve [auto with keeps]
    | apply keeps_bind
    | apply keeps_try_except
    | progress cbv zeta
    | match goal with
      | |- forall _, _ => intro
      | |- keeps_task_type (if ?b then _ else _) => destruct b
      end ].

Section TaskType.
Context {P : Platform}.
Import Spec.

Lemma keeps_while_not_running (n : nat) :
  forall count, RETRY_COUNT - count = n -> keeps_task_type (while_not_running count).
Proof.
  induction n as [|n IH]; intros count Hn w; rewrite while_not_running_turn.
  - now rewrite (proj2 (Nat.ltb_ge count RETRY_COUNT) ltac:(lia)).
  - rewrite (proj2 (Nat.ltb_lt count RETRY_COUNT) ltac:(lia)).
    pose proof (keeps_process_iter_names w) as Hpoll.
    destruct (process_iter_names w) as [[names|e] w1]; cbn [snd] in Hpoll; [|exact Hpoll].
    destruct (launcher_in names); [exact Hpoll|].
    rewrite (IH (S count) ltac:(lia)). now rewrite keeps_sleep.
Qed.

Lemma keeps_is_server_healthy : keeps_task_type is_server_healthy.
Proof.
  unfold is_server_healthy. apply keeps_bind.
  - exact (keeps_while_not_running _ 0 eq_refl).
  - keeps.
Qed.

Lemma keeps_while_not_healthy (fuel : nat) :
  forall w r w', while_not_healthy fuel w = Some (r, w') -> task_type w' = task_type w.
Proof.
  induction fuel as [|fuel IH]; intros w r w' Hloop; [discriminate Hloop|].
  cbn [while_not_healthy] in Hloop.
  pose proof (keeps_is_server_healthy w) as Hcheck.
  destruct (is_server_healthy w) as [[[|]|e] w1]; cbn [snd] in Hcheck.
  - injection Hloop as _ <-. exact Hcheck.
  - apply IH in Hloop. rewrite Hloop, <- Hcheck. apply keeps_sleep.
  - injection Hloop as _ <-. exact Hcheck.
Qed.

Lemma keeps_init_client (client_timeout : pyval) : keeps_task_type (init_client client_timeout).
Proof. unfold init_client. keeps. Qed.

(** The descriptor block, by what [init] finds at [abs_mlmodel_path]. *)
Lemma init_task_type_reads (w : World) :
  init_task_type (abs_mlmodel_path (ext w)) w
  = match mlmodel_file (ext w) with
    | None => (Returned tt, w)
    | Some (Raised e) => (Raised e, w)
    | Some (Returned mlmodel) =>
        if truthy mlmodel then
          (flavors <- lift (get mlmodel "flavors" (PDict [])) ;;
           present <- lift (contains flavors "hftransformersv2") ;;
           if present then
             flavor <- lift (subscript flavors "hftransformersv2") ;;
             t <- lift (subscript flavor "task_type") ;;
             write (set_task_type t) ;;
             if negb (eq_str t SupportedTask.TEXT_GENERATION
                      || eq_str t SupportedTask.CHAT_COMPLETION)
             then raise (Exception ("Unsupported task_type " ++ str t))
             else ret tt
           else ret tt) w
        else (Returned tt, w)
    end.
Proof.
  unfold init_task_type, mlmodel_file, bind at 1, read at 1.
  destruct (negb (String.eqb (abs_mlmodel_path (ext w)) "")
            && path_exists (ext w) (abs_mlmodel_path (ext w))).
  - unfold bind at 1 2, read, lift at 1.
    destruct (yaml_safe_load (ext w) (abs_mlmodel_path (ext w))) as [mlmodel|e];
      [destruct (truthy mlmodel); reflexivity | reflexivity].
  - reflexivity.
Qed.

(** [init_launch], around its descriptor block. *)
Lemma init_launch_around (w : World) :
  exists (rest : M pyval),
    keeps_task_type rest /\
    init_launch w
    = match init_task_type (abs_mlmodel_path (ext w)) w with
      | (Returned _, w1) => rest w1
      | (Raised e, w1) => (Raised e, w1)
      end.
Proof.
  unfold init_launch.
  unfold bind at 1, getenv at 1, read at 1.
  unfold bind at 1, environ_get_default, read at 1.
  unfold bind at 1, getenv at 1, read at 1.
  change (path_join _ MLMODEL_PATH) with (abs_mlmodel_path (ext w)).
  eexists. split; [|unfold bind at 1; reflexivity].
  keeps.
Qed.

(** A failure of the descriptor block is a failure of [init], before
    anything is launched. *)
Lemma init_fails_with_task_type (w : World) (e : exn) (w1 : World) (fuel : nat) :
  init_task_type (abs_mlmodel_path (ext w)) w = (Raised e, w1) ->
  init fuel w = Some (Raised (init_error e), w1).
Proof.
  intros Hblock. unfold init.
  destruct (init_launch_around w) as (rest & _ & ->).
  now rewrite Hblock.
Qed.

(** When the descriptor block changes nothing, neither does the rest of
    [init] change the task type. *)
Lemma init_keeps_task_type (w : World) (fuel : nat) (r : outcome unit) (w' : World) :
  init_task_type (abs_mlmodel_path (ext w)) w = (Returned tt, w) ->
  init fuel w = Some (r, w') ->
  task_type w' = task_type w.
Proof.
  intros Hblock Hinit. unfold init in Hinit.
  destruct (init_launch_around w) as (rest & Hrest & Hlaunch).
  rewrite Hlaunch, Hblock in Hinit. specialize (Hrest w).
  destruct (rest w) as [[client_timeout|e] w1]; cbn [snd] in Hrest.
  - destruct (while_not_healthy fuel w1) as [[[u|e] w2]|] eqn:Hloop; [| |discriminate Hinit].
    + apply keeps_while_not_healthy in Hloop.
      pose proof (keeps_init_client client_timeout w2) as Hend.
      destruct (init_client client_timeout w2) as [[u'|e] w3]; cbn [snd] in Hend;
        injection Hinit as _ <-; congruence.
    + apply keeps_while_not_healthy in Hloop. injection Hinit as _ <-. congruence.
  - injection Hinit as _ <-. exact Hrest.
Qed.

(** C9, as the script has it.  From the state the module starts in:
    when there is no descriptor file, or the file loads to a false value
    (an empty document), or to a mapping without [flavors] or whose
    [flavors] is a mapping without [hftransformersv2], the descriptor
    block of [init] returns normally, changing nothing, and whatever
    [init] then comes to, the task type is text-generation; when the
    descriptor gives a task-type string other than text-generation and
    chat-completion, [init] fails with
    [Error in creating client or server: Unsupported task_type ...]. *)
Theorem init_task_type_detection (x : Ext) :
  (mlmodel_file x = None
   \/ (exists mlmodel, mlmodel_file x = Some (Returned mlmodel)
                       /\ (truthy mlmodel = false \/ no_hftransformersv2 mlmodel = true)) ->
   init_task_type (abs_mlmodel_path x) (initial_world x) = (Returned tt, initial_world x)
   /\ (forall fuel r w',
         init fuel (initial_world x) = Some (r, w') ->
         task_type w' = PStr SupportedTask.TEXT_GENERATION)) /\
  (forall mlmodel s fuel,
     mlmodel_file x = Some (Returned mlmodel) ->
     descriptor_task_type mlmodel = Some (PStr s) ->
     s <> SupportedTask.TEXT_GENERATION ->
     s <> SupportedTask.CHAT_COMPLETION ->
     init fuel (initial_world x)
     = Some (Raised (Exception ("Error in creating client or server: Unsupported task_type "
                                  ++ s)),
             set_task_type (PStr s) (initial_world x))).
Proof.
  split.
  - intros Hfile.
    assert (Hblock : init_task_type (abs_mlmodel_path x) (initial_world x)
                     = (Returned tt, initial_world x)).
    { change x with (ext (initial_world x)) at 1.
      rewrite init_task_type_reads. cbn [ext initial_world].
      destruct Hfile as [-> | (mlmodel & -> & [Hfalse | Hnone])]; [reflexivity | |].
      - now rewrite Hfalse.
      - destruct (truthy mlmodel); [|reflexivity].
        unfold no_hftransformersv2 in Hnone.
        destruct mlmodel as [ |b|n|r|s|items|top]; try discriminate Hnone.
        unfold bind at 1, lift at 1. cbn [get].
        destruct (lookup "flavors" top) as [flavors|].
        + destruct flavors as [ |b|n|r|s|items|flavors]; try discriminate Hnone.
          unfold bind at 1, lift at 1. cbn [contains].
          destruct (lookup "hftransformersv2" flavors); [discriminate Hnone | reflexivity].
        + reflexivity. }
    split; [exact Hblock|].
    intros fuel r w' Hinit.
    exact (init_keeps_task_type (initial_world x) fuel r w' Hblock Hinit).
  - intros mlmodel s fuel Hfile Hpath Hnot_tg Hnot_cc.
    apply (init_fails_with_task_type (initial_world x) (Exception ("Unsupported task_type " ++ s))).
    rewrite init_task_type_reads. cbn [ext initial_world]. rewrite Hfile.
    unfold descriptor_task_type in Hpath.
    destruct mlmodel as [ |b|n|r|s0|items|top]; try discriminate Hpath.
    destruct (lookup "flavors" top) as [flavors|] eqn:Hflavors; [|discriminate Hpath].
    destruct flavors as [ |b|n|r|s0|items|flavors]; try discriminate Hpath.
    destruct (lookup "hftransformersv2" flavors) as [flavor|] eqn:Hflavor;
      [|discriminate Hpath].
    destruct flavor as [ |b|n|r|s0|items|flavor]; try discriminate Hpath.
    assert (Htop : truthy (PDict top) = true)
      by (destruct top; [discriminate Hflavors | reflexivity]).
    rewrite Htop.
    unfold bind at 1, lift at 1. cbn [get]. rewrite Hflavors.
    unfold bind at 1, lift at 1. cbn [contains]. rewrite Hflavor.
    unfold bind at 1, lift at 1. cbn [subscript]. rewrite Hflavor.
    unfold bind at 1, lift at 1. cbn [subscript]. rewrite Hpath.
    unfold bind, write, raise. cbn [eq_str str].
    rewrite (proj2 (String.eqb_neq s SupportedTask.TEXT_GENERATION) Hnot_tg).
    rewrite (proj2 (String.eqb_neq s SupportedTask.CHAT_COMPLETION) Hnot_cc).
    reflexivity.
Qed.

End TaskType.

Lemma init_task_type_detection_witness :
  (mlmodel_file (P := Sim.described Sim.other_flavor) O = Some (Returned Sim.other_flavor) /\
   Spec.no_hftransformersv2 Sim.other_flavor = true /\
   init_task_type (P := Sim.described Sim.other_flavor)
     (abs_mlmodel_path (P := Sim.described Sim.other_flavor) O)
     (initial_world (P := Sim.described Sim.other_flavor) O)
   = (Returned tt, initial_world (P := Sim.described Sim.other_flavor) O) /\
   (forall fuel r w',
      init (P := Sim.described Sim.other_flavor) fuel
        (initial_world (P := Sim.described Sim.other_flavor) O) = Some (r, w') ->
      task_type w' = PStr "text-generation")) /\
  (mlmodel_file (P := Sim.described Sim.summarization) O = Some (Returned Sim.summarization) /\
   Spec.descriptor_task_type Sim.summarization = Some (PStr "summarization") /\
   init (P := Sim.described Sim.summarization) 1
     (initial_world (P := Sim.described Sim.summarization) O)
   = Some (Raised (Exception
                     "Error in creating client or server: Unsupported task_type summarization"),
           set_task_type (P := Sim.described Sim.summarization) (PStr "summarization")
             (initial_world (P := Sim.described Sim.summarization) O))).
Proof.
  split; (split; [reflexivity|]); (split; [reflexivity|]).
  - apply (proj1 (init_task_type_detection (P := Sim.described Sim.other_flavor) O)).
    right. exists Sim.other_flavor. split; [reflexivity|]. right; reflexivity.
  - apply (proj2 (init_task_type_detection (P := Sim.described Sim.summarization) O)
             Sim.summarization "summarization" 1); try reflexivity; discriminate.
Defined.

(** C9, as the specification has it, fails: a descriptor whose
    [hftransformersv2] flavor has no [task_type] key gives no task type,
    and [init] does not fall back to text-generation but fails on the
    missing key. *)
Lemma init_missing_task_type_key :
  mlmodel_file (P := Sim.described Sim.flavor_without_task_type) O
  = Some (Returned Sim.flavor_without_task_type) /\
  Spec.descriptor_task_type Sim.flavor_without_task_type = None /\
  init_task_type (P := Sim.described Sim.flavor_without_task_type)
    (abs_mlmodel_path (P := Sim.described Sim.flavor_without_task_type) O)
    (initial_world (P := Sim.described Sim.flavor_without_task_type) O)
  = (Raised (KeyError "task_type"),
     initial_world (P := Sim.described Sim.flavor_without_task_type) O) /\
  init (P := Sim.described Sim.flavor_without_task_type) 1
    (initial_world (P := Sim.described Sim.flavor_without_task_type) O)
  = Some (Raised (Exception "Error in creating client or server: 'task_type'"),
          initial_world (P := Sim.described Sim.flavor_without_task_type) O).
Proof.
  repeat split; reflexivity.
Qed.

(** * Further properties *)

(** ** The formatter on any transcript *)

Section FlattenTotal.
Import Spec.

(** What the formatter does on a transcript, valid or not. *)
Lemma flatten_code_spec (t : Transcript) :
  get_processed_input_data_for_chat_completion (map to_py t)
  = if alternation_invariant t then Returned (flatten t) else Raised (AssertionError "").
Proof.
  destruct t as [|first rest]; [reflexivity|].
  rewrite flatten_code_unfold. unfold alternation_invariant.
  cbn [first_is_user last_is_user tl].
  destruct (is_user first) eqn:Hfirst; [|reflexivity].
  destruct (is_user (last (first :: rest) first)); [|reflexivity].
  cbn [andb].
  destruct (alternates true rest) eqn:Halt.
  - rewrite (chat_turns_alternating rest 0 _ Halt), flatten_cons.
    unfold render, is_user in *. destruct (role first); [|discriminate Hfirst].
    now rewrite !append_assoc.
  - now apply chat_turns_out_of_turn.
Qed.

End FlattenTotal.

(** ** The parser, shape by shape *)

Section ParserShapes.
Context {P : Platform}.
Import Spec.

(** X1.  Under any task type but chat-completion, a request of the
    right shape gives back its [input_string] list as it came, whatever
    its elements are, with its [parameters], or with no parameters when
    the key is absent. *)
Theorem get_request_data_text_generation (raw : string) (w : World)
    (top inputs : list (string * pyval)) (items : list pyval) :
  eq_str (task_type w) SupportedTask.CHAT_COMPLETION = false ->
  json_loads raw = Returned (PDict top) ->
  lookup "input_data" top = Some (PDict inputs) ->
  lookup "input_string" inputs = Some (PList items) ->
  (lookup "parameters" inputs = None ->
   get_request_data raw w = (Returned (PList items, []), w)) /\
  (forall kwargs, lookup "parameters" inputs = Some (PDict kwargs) ->
   get_request_data raw w = (Returned (PList items, kwargs), w)).
Proof.
  intros Ht Hloads Hdata Hstring.
  unfold get_request_data, try_except, bind, lift, read, raise, ret.
  rewrite Hloads. cbn [get]. rewrite Hdata. cbn [is_dict negb subscript get].
  rewrite Hstring.
  split; [intros -> | intros kwargs ->]; now rewrite Ht.
Qed.

(** X2.  Under chat-completion, a request whose [input_string] is a
    transcript is flattened by the parser when the transcript keeps the
    alternation invariant; when it does not, the parser fails and the
    ["exception"] of its payload is the empty string, the message of a
    bare [assert]. *)
Theorem get_request_data_chat_completion (raw : string) (w : World)
    (top inputs kwargs : list (string * pyval)) (t : Transcript) :
  task_type w = PStr SupportedTask.CHAT_COMPLETION ->
  json_loads raw = Returned (PDict top) ->
  lookup "input_data" top = Some (PDict inputs) ->
  lookup "input_string" inputs = Some (PList (map to_py t)) ->
  lookup "parameters" inputs = Some (PDict kwargs) ->
  get_request_data raw w
  = if alternation_invariant t
    then (Returned (PStr (flatten t), kwargs), w)
    else (Raised (Exception (Json.dumps (PDict [("error", PStr usage_hint);
                                                ("exception", PStr "")]))), w).
Proof.
  intros Ht Hloads Hdata Hstring Hparams.
  unfold get_request_data, try_except, bind, lift, read, raise, ret.
  rewrite Hloads. cbn [get]. rewrite Hdata. cbn [is_dict negb subscript get].
  rewrite Hstring, Hparams, Ht.
  change (eq_str (PStr SupportedTask.CHAT_COMPLETION) SupportedTask.CHAT_COMPLETION)
    with true. cbn iota.
  rewrite flatten_code_spec.
  destruct (alternation_invariant t); reflexivity.
Qed.

(** X3.  The first check that fails decides what the parser reports:
    the decoding error, then the missing [get] of a document that is not
    an object, then [Invalid input data], then the missing
    [input_string] key, then [query is not a list], then
    [parameters is not a dict]; a later defect does not show. *)
Theorem get_request_data_diagnostics (raw : string) (w : World) :
  (forall e, json_loads raw = Raised e ->
     get_request_data raw w = (Raised (Exception (parse_error_payload e)), w)) /\
  (forall data, json_loads raw = Returned data -> is_dict data = false ->
     get_request_data raw w
     = (Raised (Exception (parse_error_payload (no_attribute data "get"))), w)) /\
  (forall top, json_loads raw = Returned (PDict top) ->
     input_data_missing_or_not_object (PDict top) = true ->
     get_request_data raw w
     = (Raised (Exception (parse_error_payload (Exception "Invalid input data"))), w)) /\
  (forall top inputs, json_loads raw = Returned (PDict top) ->
     lookup "input_data" top = Some (PDict inputs) ->
     lookup "input_string" inputs = None ->
     get_request_data raw w
     = (Raised (Exception (parse_error_payload (KeyError "input_string"))), w)
     /\ str_exn (KeyError "input_string") = "'input_string'") /\
  (forall top inputs v, json_loads raw = Returned (PDict top) ->
     lookup "input_data" top = Some (PDict inputs) ->
     lookup "input_string" inputs = Some v ->
     (forall items, v <> PList items) ->
     get_request_data raw w
     = (Raised (Exception (parse_error_payload (Exception "query is not a list"))), w)) /\
  (forall top inputs items v, json_loads raw = Returned (PDict top) ->
     lookup "input_data" top = Some (PDict inputs) ->
     lookup "input_string" inputs = Some (PList items) ->
     lookup "parameters" inputs = Some v ->
     is_dict v = false ->
     get_request_data raw w
     = (Raised (Exception (parse_error_payload (Exception "parameters is not a dict"))), w)).
Proof.
  unfold get_request_data, try_except, bind, lift, read, raise, ret.
  split; [|split; [|split; [|split; [|split]]]].
  - intros e ->. reflexivity.
  - intros data -> Hnot. destruct data; try reflexivity. discriminate Hnot.
  - intros top -> Hbad. cbn [get]. unfold input_data_missing_or_not_object in Hbad.
    destruct (lookup "input_data" top) as [[ | | | | | | ]|]; try reflexivity.
    discriminate Hbad.
  - intros top inputs -> Hdata Hstring. cbn [get]. rewrite Hdata.
    cbn [is_dict negb subscript]. rewrite Hstring. split; reflexivity.
  - intros top inputs v -> Hdata Hstring Hnot. cbn [get]. rewrite Hdata.
    cbn [is_dict negb subscript get]. rewrite Hstring.
    destruct (lookup "parameters" inputs); destruct v; try reflexivity;
      now contradiction (Hnot items).
  - intros top inputs items v -> Hdata Hstring Hparams Hnot. cbn [get]. rewrite Hdata.
    cbn [is_dict negb subscript get]. rewrite Hstring, Hparams.
    destruct v; try reflexivity. discriminate Hnot.
Qed.

End ParserShapes.

Lemma get_request_data_text_generation_witness :
  get_request_data (P := Sim.serving) (Json.dumps Sim.no_prompts) Sim.ready
  = (Returned (PList [], []), Sim.ready) /\
  get_request_data (P := Sim.serving) (Json.dumps Sim.two_prompts) Sim.ready
  = (Returned (PList [PStr "p0"; PStr "p1"],
               [("max_new_tokens", PInt 100); ("do_sample", PBool true)]), Sim.ready).
Proof.
  split.
  - apply (proj1 (get_request_data_text_generation (P := Sim.serving)
                    (Json.dumps Sim.no_prompts) Sim.ready
                    [("input_data", PDict [("input_string", PList [])])]
                    [("input_string", PList [])] []
                    eq_refl eq_refl eq_refl eq_refl)).
    reflexivity.
  - apply (proj2 (get_request_data_text_generation (P := Sim.serving)
                    (Json.dumps Sim.two_prompts) Sim.ready
                    [("input_data",
                      PDict [("input_string", PList [PStr "p0"; PStr "p1"]);
                             ("parameters",
                              PDict [("max_new_tokens", PInt 100); ("do_sample", PBool true)])])]
                    [("input_string", PList [PStr "p0"; PStr "p1"]);
                     ("parameters",
                      PDict [("max_new_tokens", PInt 100); ("do_sample", PBool true)])]
                    [PStr "p0"; PStr "p1"]
                    eq_refl eq_refl eq_refl eq_refl)).
    reflexivity.
Defined.

Lemma get_request_data_chat_completion_witness :
  get_request_data (P := Sim.chatting) (Json.dumps Sim.chat_payload) Sim.ready_chatting
  = (Returned (PStr ("[INST]Hi[/INST]Hello" ++ LF ++ "[INST]Bye[/INST]"),
               [("max_new_tokens", PInt 100)]), Sim.ready_chatting).
Proof.
  apply (get_request_data_chat_completion (P := Sim.chatting)
           (Json.dumps Sim.chat_payload) Sim.ready_chatting
           [("input_data",
             PDict [("input_string",
                     PList [Spec.to_py (Spec.mkTurn Spec.User " Hi ");
                            Spec.to_py (Spec.mkTurn Spec.Assistant "Hello");
                            Spec.to_py (Spec.mkTurn Spec.User "Bye")]);
                    ("parameters", PDict [("max_new_tokens", PInt 100)])])]
           [("input_string",
             PList [Spec.to_py (Spec.mkTurn Spec.User " Hi ");
                    Spec.to_py (Spec.mkTurn Spec.Assistant "Hello");
                    Spec.to_py (Spec.mkTurn Spec.User "Bye")]);
            ("parameters", PDict [("max_new_tokens", PInt 100)])]
           [("max_new_tokens", PInt 100)]
           [Spec.mkTurn Spec.User " Hi "; Spec.mkTurn Spec.Assistant "Hello";
            Spec.mkTurn Spec.User "Bye"]); reflexivity.
Defined.

Lemma get_request_data_diagnostics_witness :
  get_request_data (P := Sim.chatting) (Json.dumps Sim.string_query) Sim.ready_chatting
  = (Raised (Exception (parse_error_payload (Exception "query is not a list"))),
     Sim.ready_chatting) /\
  get_request_data (P := Sim.chatting) "{" Sim.ready_chatting
  = (Raised (Exception (parse_error_payload
                          (OtherError "JSONDecodeError"
                             "Expecting value: line 1 column 1 (char 0)"))),
     Sim.ready_chatting).
Proof.
  split.
  - apply (proj1 (proj2 (proj2 (proj2 (proj2
             (get_request_data_diagnostics (P := Sim.chatting)
                (Json.dumps Sim.string_query) Sim.ready_chatting)))))
             [("input_data", PDict [("input_string", PStr "p0"); ("parameters", PInt 3)])]
             [("input_string", PStr "p0"); ("parameters", PInt 3)]
             (PStr "p0")); try reflexivity.
    intros items. discriminate.
  - apply (proj1 (get_request_data_diagnostics (P := Sim.chatting) "{" Sim.ready_chatting)).
    reflexivity.
Defined.

(** ** The dispatcher, call by call *)

Section DispatcherCalls.
Context {P : Platform}.
Import Spec.

(** X4.  Under chat-completion [run] calls the backend once, with the
    query and the parameters the parser returned, and answers with the
    object that holds the generated text under ["0"]. *)
Theorem run_chat_completion (raw : string) (w : World) (c : Client) (query : pyval)
    (params : list (string * pyval)) (text : string) (x' : Ext) :
  client w = Some c ->
  task_type w = PStr SupportedTask.CHAT_COMPLETION ->
  fst (get_request_data raw w) = Returned (query, params) ->
  client_generate c query params (ext w) = (Returned text, x') ->
  run raw w
  = (Returned ("{" ++ quoted "0" ++ ": " ++ Json.encode_basestring_ascii text ++ "}"),
     after_calls w x' [Generated query params]).
Proof.
  intros Hc Ht Hparse Hgen.
  pose proof (get_request_data_returns raw w _ Hparse) as Hg.
  unfold run, try_except, run_body, bind at 1, read. rewrite Hc.
  unfold bind at 1. rewrite Hg. cbn beta iota.
  unfold bind at 1. rewrite Ht.
  change (eq_str (PStr SupportedTask.CHAT_COMPLETION) SupportedTask.CHAT_COMPLETION)
    with true. cbn iota.
  unfold bind, generate. rewrite Hgen. reflexivity.
Qed.

(** The loop when the backend answers the first [k] prompts and fails
    on the next. *)
Lemma generate_each_fails_at (c : Client) (params : list (string * pyval)) (k : nat) :
  forall (prompts : list pyval) (i : nat) (results : list pyval) (w : World)
         (texts : list string) (x1 : Ext) (q : pyval) (e : exn) (x2 : Ext),
    ask_all c params (firstn k prompts) (ext w) = (Returned texts, x1) ->
    nth_error prompts k = Some q ->
    client_generate c q params x1 = (Raised e, x2) ->
    generate_each c i prompts params results w
    = (Raised e, after_calls w x2 (map (fun p => Generated p params) (firstn (S k) prompts))).
Proof.
  induction k as [|k IH]; intros prompts i results w texts x1 q e x2 Hask Hnth Hgen;
    destruct prompts as [|p rest]; try discriminate Hnth.
  - cbn in Hask, Hnth. injection Hask as _ <-. injection Hnth as ->.
    cbn [generate_each]. unfold bind, generate. rewrite Hgen. reflexivity.
  - cbn [firstn ask_all] in Hask. cbn [nth_error] in Hnth.
    cbn [generate_each]. unfold bind at 1, generate at 1.
    destruct (client_generate c p params (ext w)) as [[t|e0] x0]; [|discriminate Hask].
    destruct (ask_all c params (firstn k rest) x0) as [[ts|e0] x0'] eqn:Hrest;
      [|discriminate Hask].
    injection Hask as _ <-.
    rewrite (IH rest (S i) _ (step x0 (Generated p params) w) ts x0' q e x2 Hrest Hnth Hgen).
    unfold after_calls, step. cbn [client task_type ext trace map firstn].
    now rewrite <- !app_assoc.
Qed.

(** X5.  When the backend answers the first [k] prompts of a batch and
    raises on the next, [run] has called it for those [k + 1] prompts
    and no further, and what it returns is the error envelope alone: the
    texts already generated are dropped. *)
Theorem run_batch_failure (raw : string) (w : World) (c : Client)
    (prompts : list pyval) (params : list (string * pyval)) (k : nat)
    (texts : list string) (x1 : Ext) (q : pyval) (e : exn) (x2 : Ext) :
  client w = Some c ->
  task_type w = PStr SupportedTask.TEXT_GENERATION ->
  fst (get_request_data raw w) = Returned (PList prompts, params) ->
  ask_all c params (firstn k prompts) (ext w) = (Returned texts, x1) ->
  nth_error prompts k = Some q ->
  client_generate c q params x1 = (Raised e, x2) ->
  run raw w
  = (Returned (error_envelope e),
     after_calls w x2 (map (fun p => Generated p params) (firstn (S k) prompts))).
Proof.
  intros Hc Ht Hparse Hask Hnth Hgen.
  pose proof (get_request_data_returns raw w _ Hparse) as Hg.
  unfold run, try_except.
  rewrite (run_body_text_generation raw w c prompts params Hc Ht Hg).
  unfold bind.
  now rewrite (generate_each_fails_at c params k prompts 0 [] w texts x1 q e x2 Hask Hnth Hgen).
Qed.

(** The loop writes no global and leaves only backend calls behind. *)
Lemma generate_each_only_generates (c : Client) (params : list (string * pyval))
    (prompts : list pyval) :
  forall (i : nat) (results : list pyval) (w : World),
    let w' := snd (generate_each c i prompts params results w) in
    client w' = client w /\ task_type w' = task_type w /\
    exists calls, trace w' = (trace w ++ calls)%list
                  /\ forallb is_generated calls = true
                  /\ length calls <= length prompts.
Proof.
  induction prompts as [|q rest IH]; intros i results w; cbn zeta.
  - cbn. repeat split. exists []. now rewrite app_nil_r.
  - cbn [generate_each]. unfold bind, generate.
    destruct (client_generate c q params (ext w)) as [[t|e] x1].
    + destruct (IH (S i) (results ++ [PDict [(str_of_nat i, PStr t)]])%list
                  (step x1 (Generated q params) w)) as (Hc & Ht & calls & Htr & Hall & Hlen).
      repeat split; [exact Hc | exact Ht |].
      exists (Generated q params :: calls). repeat split.
      * rewrite Htr. cbn [step trace]. now rewrite <- app_assoc.
      * exact Hall.
      * cbn. lia.
    + cbn [snd step client task_type trace]. repeat split.
      exists [Generated q params]. repeat split. cbn. lia.
Qed.

(** X6.  Whatever the request and whatever the backend does, [run]
    leaves the globals [client] and [task_type] as they were, and all
    it does outside is call the backend: under chat-completion at most
    once, otherwise at most once per element of the parsed query. *)
Theorem run_only_generates (raw : string) (w : World) :
  let w' := snd (run raw w) in
  client w' = client w /\ task_type w' = task_type w /\
  exists calls,
    trace w' = (trace w ++ calls)%list /\
    forallb is_generated calls = true /\
    (eq_str (task_type w) SupportedTask.CHAT_COMPLETION = true -> length calls <= 1) /\
    (forall prompts params,
       fst (get_request_data raw w) = Returned (PList prompts, params) ->
       eq_str (task_type w) SupportedTask.CHAT_COMPLETION = false ->
       length calls <= length prompts).
Proof.
  cbn zeta. unfold run, try_except.
  assert (Hnone : forall (r : outcome string),
            client w = client w /\ task_type w = task_type w /\
            exists calls,
              trace w = (trace w ++ calls)%list /\
              forallb is_generated calls = true /\
              (eq_str (task_type w) SupportedTask.CHAT_COMPLETION = true -> length calls <= 1) /\
              (forall prompts params,
                 fst (get_request_data raw w) = Returned (PList prompts, params) ->
                 eq_str (task_type w) SupportedTask.CHAT_COMPLETION = false ->
                 length calls <= length prompts)).
  { intros _. repeat split. exists []. rewrite app_nil_r. repeat split; cbn; lia. }
  destruct (run_body raw w) as [r w1] eqn:Hbody.
  replace (snd (let (o, w') := (r, w1) in
                match o with
                | Returned a => (Returned a, w')
                | Raised e => ret (error_envelope e) w'
                end)) with w1 by (destruct r; reflexivity).
  unfold run_body, bind at 1, read in Hbody.
  destruct (client w) as [c|] eqn:Hc;
    [|injection Hbody as _ <-; rewrite Hc; exact (Hnone (Returned ""))].
  unfold bind at 1 in Hbody.
  destruct (get_request_data_cases raw w) as [(query & params & Hg) | (inner & Hg)];
    rewrite Hg in Hbody;
    [|injection Hbody as _ <-; rewrite Hc; exact (Hnone (Returned ""))].
  cbn beta iota in Hbody. unfold bind at 1 in Hbody.
  unfold read in Hbody.
  destruct (eq_str (task_type w) SupportedTask.CHAT_COMPLETION) eqn:Hchat.
  - unfold bind, generate in Hbody.
    destruct (client_generate c query params (ext w)) as [[text|e] x1];
      injection Hbody as _ <-; cbn [step client task_type trace];
      (repeat split; [exact Hc|]);
      exists [Generated query params]; repeat split; try (cbn; lia); discriminate.
  - destruct (eq_str (task_type w) SupportedTask.TEXT_GENERATION);
      [|injection Hbody as _ <-; rewrite Hc; exact (Hnone (Returned ""))].
    destruct query as [ |b|n|r0|s|prompts|items];
      try (injection Hbody as _ <-; rewrite Hc; exact (Hnone (Returned ""))).
    unfold bind in Hbody.
    pose proof (generate_each_only_generates c params prompts 0 [] w) as Hloop.
    cbn zeta in Hloop.
    destruct (generate_each c 0 prompts params [] w) as [[results|e] w2];
      cbn [snd] in Hloop; injection Hbody as _ <-;
      destruct Hloop as (Hc' & Ht' & calls & Htr & Hall & Hlen);
      (repeat split; [congruence | exact Ht' |]);
      exists calls; (repeat split; [exact Htr | exact Hall | discriminate |]);
      intros prompts' params' Hparse _; rewrite Hg in Hparse; cbn in Hparse;
      injection Hparse as <- _; exact Hlen.
Qed.

End DispatcherCalls.

Lemma run_chat_completion_witness :
  fst (get_request_data (P := Sim.chatting) (Json.dumps Sim.chat_payload) Sim.ready_chatting)
  = Returned (PStr ("[INST]Hi[/INST]Hello" ++ LF ++ "[INST]Bye[/INST]"),
              [("max_new_tokens", PInt 100)]) /\
  run (P := Sim.chatting) (Json.dumps Sim.chat_payload) Sim.ready_chatting
  = (Returned ("{" ++ quoted "0" ++ ": "
                   ++ quoted "re: [INST]Hi[/INST]Hello\n[INST]Bye[/INST]" ++ "}"),
     after_calls (P := Sim.chatting) Sim.ready_chatting O
       [Generated (PStr ("[INST]Hi[/INST]Hello" ++ LF ++ "[INST]Bye[/INST]"))
          [("max_new_tokens", PInt 100)]]).
Proof.
  split; [reflexivity|].
  apply (run_chat_completion (P := Sim.chatting)
           (Json.dumps Sim.chat_payload) Sim.ready_chatting tt
           (PStr ("[INST]Hi[/INST]Hello" ++ LF ++ "[INST]Bye[/INST]"))
           [("max_new_tokens", PInt 100)]
           ("re: [INST]Hi[/INST]Hello" ++ LF ++ "[INST]Bye[/INST]") O); reflexivity.
Defined.

Lemma run_batch_failure_witness :
  ask_all (P := Sim.failing_on_p1) tt
    [("max_new_tokens", PInt 100); ("do_sample", PBool true)] [PStr "p0"] O
  = (Returned ["re: p0"], O) /\
  run (P := Sim.failing_on_p1) (Json.dumps Sim.two_prompts) Sim.ready_failing_on_p1
  = (Returned ("{" ++ quoted "error" ++ ": " ++ quoted "Error in processing request" ++ ", "
                   ++ quoted "exception" ++ ": " ++ quoted "Read timed out." ++ "}"),
     after_calls (P := Sim.failing_on_p1) Sim.ready_failing_on_p1 O
       [Generated (PStr "p0") [("max_new_tokens", PInt 100); ("do_sample", PBool true)];
        Generated (PStr "p1") [("max_new_tokens", PInt 100); ("do_sample", PBool true)]]).
Proof.
  split; [reflexivity|].
  apply (run_batch_failure (P := Sim.failing_on_p1)
           (Json.dumps Sim.two_prompts) Sim.ready_failing_on_p1 tt
           [PStr "p0"; PStr "p1"]
           [("max_new_tokens", PInt 100); ("do_sample", PBool true)]
           1 ["re: p0"] O (PStr "p1")
           (OtherError "ReadTimeout" "Read timed out.") O); reflexivity.
Defined.

Lemma run_only_generates_witness :
  client (snd (run (P := Sim.failing_on_p1) (Json.dumps Sim.two_prompts)
                 Sim.ready_failing_on_p1)) = Some tt /\
  task_type (snd (run (P := Sim.failing_on_p1) (Json.dumps Sim.two_prompts)
                    Sim.ready_failing_on_p1)) = PStr "text-generation".
Proof.
  pose proof (run_only_generates (P := Sim.failing_on_p1)
                (Json.dumps Sim.two_prompts) Sim.ready_failing_on_p1) as H.
  cbn zeta in H. destruct H as (Hc & Ht & _).
  split; [exact Hc | exact Ht].
Defined.

(** ** The formatter: whitespace, growth, roles *)

Section FlattenMore.
Import Spec.

Lemma same_role_eq (a b : Role) : same_role a b = true -> a = b.
Proof. destruct a, b; (reflexivity || discriminate). Qed.

Lemma same_trimmed_cons (a b : ChatTurn) (r1 r2 : Transcript) :
  same_trimmed (a :: r1) (b :: r2) = true ->
  role a = role b /\ str_strip (content a) = str_strip (content b)
  /\ same_trimmed r1 r2 = true.
Proof.
  cbn [same_trimmed]. intros H.
  apply andb_true_iff in H as [H Hrest]. apply andb_true_iff in H as [Hrole Htext].
  split; [now apply same_role_eq|]. split; [now apply String.eqb_eq | exact Hrest].
Qed.

Lemma same_trimmed_alternates (t1 : Transcript) :
  forall (t2 : Transcript) (b : bool),
    same_trimmed t1 t2 = true -> alternates b t1 = alternates b t2.
Proof.
  induction t1 as [|a r1 IH]; intros [|c r2] b Hsame; try discriminate Hsame.
  - reflexivity.
  - apply same_trimmed_cons in Hsame as (Hrole & _ & Hrest).
    cbn [alternates]. unfold is_assistant, is_user. rewrite Hrole.
    now rewrite (IH r2 (negb b) Hrest).
Qed.

Lemma same_trimmed_last (t1 : Transcript) :
  forall (t2 : Transcript) (d1 d2 : ChatTurn),
    same_trimmed t1 t2 = true -> role d1 = role d2 ->
    role (last t1 d1) = role (last t2 d2).
Proof.
  induction t1 as [|a r1 IH]; intros [|c r2] d1 d2 Hsame Hd; try discriminate Hsame.
  - exact Hd.
  - apply same_trimmed_cons in Hsame as (Hrole & _ & Hrest).
    destruct r1 as [|a' r1]; destruct r2 as [|c' r2]; try discriminate Hrest.
    + exact Hrole.
    + change (role (last (a' :: r1) d1) = role (last (c' :: r2) d2)).
      now apply IH.
Qed.

Lemma same_trimmed_flatten (t1 : Transcript) :
  forall t2 : Transcript, same_trimmed t1 t2 = true -> flatten t1 = flatten t2.
Proof.
  induction t1 as [|a r1 IH]; intros [|c r2] Hsame; try discriminate Hsame.
  - reflexivity.
  - apply same_trimmed_cons in Hsame as (Hrole & Htext & Hrest).
    rewrite !flatten_cons, (IH r2 Hrest). unfold render. now rewrite Hrole, Htext.
Qed.

(** X7.  The formatter sees the content of a turn only through its
    trimmed form: two transcripts with the same roles whose contents
    differ by surrounding whitespace give the same result, the same
    prompt or the same failure. *)
Theorem flatten_ignores_surrounding_whitespace (t1 t2 : Transcript) :
  same_trimmed t1 t2 = true ->
  get_processed_input_data_for_chat_completion (map to_py t1)
  = get_processed_input_data_for_chat_completion (map to_py t2).
Proof.
  intros Hsame. rewrite !flatten_code_spec.
  rewrite (same_trimmed_flatten t1 t2 Hsame).
  replace (alternation_invariant t2) with (alternation_invariant t1); [reflexivity|].
  unfold alternation_invariant.
  destruct t1 as [|a r1]; destruct t2 as [|c r2]; try discriminate Hsame; [reflexivity|].
  pose proof (same_trimmed_last (a :: r1) (c :: r2) a c Hsame) as Hlast.
  apply same_trimmed_cons in Hsame as (Hrole & _ & Hrest).
  cbn [first_is_user last_is_user tl]. unfold is_user.
  rewrite (Hlast Hrole), Hrole.
  now rewrite (same_trimmed_alternates r1 r2 true Hrest).
Qed.

Lemma flatten_app (t1 t2 : Transcript) :
  flatten (t1 ++ t2)%list = flatten t1 ++ flatten t2.
Proof.
  induction t1 as [|a t1 IH]; [reflexivity|].
  cbn [app]. rewrite !flatten_cons, IH. now rewrite append_assoc.
Qed.

Lemma alternates_reply (l : Transcript) :
  forall (b : bool) (d a u : ChatTurn),
    alternates b l = true ->
    match l with [] => b = true | _ => is_user (last l d) = true end ->
    is_assistant a = true -> is_user u = true ->
    alternates b (l ++ [a; u])%list = true.
Proof.
  induction l as [|x l IH]; intros b d a u Halt Hlast Ha Hu.
  - subst b. cbn. now rewrite Ha, Hu.
  - cbn [app alternates]. cbn [alternates] in Halt.
    apply andb_true_iff in Halt as [Hx Hrest]. rewrite Hx. cbn [andb].
    apply (IH (negb b) d a u Hrest); try assumption.
    destruct l as [|y l].
    + cbn in Hlast. destruct b; [|reflexivity].
      unfold is_assistant, is_user in *. destruct (role x); discriminate.
    + exact Hlast.
Qed.

Lemma last_after_reply (l : Transcript) (a u d : ChatTurn) :
  last (l ++ [a; u])%list d = u.
Proof.
  induction l as [|x l IH]; [reflexivity|].
  cbn [app]. destruct l as [|y l]; [reflexivity|]. exact IH.
Qed.

(** X8.  A valid transcript extended by an assistant turn and a user
    turn is valid, and its prompt is the prompt of the transcript
    followed by the trimmed reply and a newline and by the trimmed new
    question between [[INST]] and [[/INST]]. *)
Theorem flatten_next_exchange (t : Transcript) (reply question : string) :
  alternation_invariant t = true ->
  get_processed_input_data_for_chat_completion
    (map to_py (t ++ [mkTurn Assistant reply; mkTurn User question])%list)
  = Returned (flatten t ++ str_strip reply ++ LF
                ++ B_INST ++ str_strip question ++ E_INST).
Proof.
  intros Hinv. rewrite flatten_code_spec, flatten_app.
  assert (Hext : alternation_invariant
                   (t ++ [mkTurn Assistant reply; mkTurn User question])%list = true).
  { unfold alternation_invariant in *.
    apply andb_true_iff in Hinv as [Hinv Halt].
    apply andb_true_iff in Hinv as [Hfirst Hlast].
    destruct t as [|first rest]; [discriminate Hfirst|].
    cbn [app first_is_user last_is_user tl] in *. rewrite Hfirst. cbn [andb].
    apply andb_true_iff. split.
    - change (first :: (rest ++ [mkTurn Assistant reply; mkTurn User question])%list)
        with ((first :: rest) ++ [mkTurn Assistant reply; mkTurn User question])%list.
      now rewrite last_after_reply.
    - apply (alternates_reply rest true first); try reflexivity; [exact Halt|].
      destruct rest as [|y rest]; [reflexivity | exact Hlast]. }
  rewrite Hext. unfold flatten at 2. cbn [fold_right render role content].
  now rewrite append_empty_r, !append_assoc.
Qed.

Lemma role_of_turn_of (turn : pyval * string) :
  subscript (turn_of turn) "role" = Returned (fst turn).
Proof. reflexivity. Qed.

Lemma content_of_turn_of (turn : pyval * string) :
  subscript (turn_of turn) "content" = Returned (PStr (snd turn)).
Proof. reflexivity. Qed.

(** The loop on turn objects with any roles: it fails on an assertion,
    or every role it met is one of the two it knows. *)
Lemma chat_turns_roles (turns : list (pyval * string)) :
  forall (i : nat) (history : string),
    chat_turns i (map turn_of turns) history = Raised (AssertionError "")
    \/ ((exists s, chat_turns i (map turn_of turns) history = Returned s)
        /\ forallb (fun turn => known_role (fst turn)) turns = true).
Proof.
  induction turns as [|[r c] turns IH]; intros i history.
  - right. split; [now exists history | reflexivity].
  - cbn [map chat_turns]. rewrite !role_of_turn_of, !content_of_turn_of.
    cbn [fst snd obind].
    destruct (Nat.eqb (i mod 2) 0).
    + destruct (eq_str r "assistant") eqn:Hr; cbn [assert obind strip]; [|now left].
      destruct (IH (S i) (history ++ str_strip c ++ LF)) as [H | [H Hall]]; [now left|].
      right. split; [exact H|]. cbn [forallb fst]. rewrite Hall. unfold known_role.
      rewrite Hr. now rewrite orb_true_r.
    + destruct (eq_str r "user") eqn:Hr; cbn [assert obind strip]; [|now left].
      destruct (IH (S i) (history ++ B_INST ++ str_strip c ++ E_INST)) as [H | [H Hall]];
        [now left|].
      right. split; [exact H|]. cbn [forallb fst]. rewrite Hall. unfold known_role.
      now rewrite Hr.
Qed.

Lemma last_turn_of (turns : list (pyval * string)) (d : pyval * string) :
  last (map turn_of turns) (turn_of d) = turn_of (last turns d).
Proof.
  induction turns as [|a turns IH]; [reflexivity|].
  destruct turns as [|b turns]; [reflexivity|].
  change (last (map turn_of (b :: turns)) (turn_of d) = turn_of (last (b :: turns) d)).
  exact IH.
Qed.

(** X9.  A transcript of turn objects in which some role is neither
    ["user"] nor ["assistant"] (a system turn, a role that is not a
    string) is refused with the [AssertionError] of a bare [assert],
    wherever the turn stands. *)
Theorem flatten_unknown_role (turns : list (pyval * string)) :
  existsb (fun turn => negb (known_role (fst turn))) turns = true ->
  get_processed_input_data_for_chat_completion (map turn_of turns)
  = Raised (AssertionError "").
Proof.
  intros Hbad. destruct turns as [|[r c] rest]; [discriminate Hbad|].
  unfold get_processed_input_data_for_chat_completion.
  cbn [map length Nat.ltb Nat.leb assert obind].
  change (last (turn_of (r, c) :: map turn_of rest) (turn_of (r, c)))
    with (last (map turn_of ((r, c) :: rest)) (turn_of (r, c))).
  rewrite last_turn_of, !role_of_turn_of, !content_of_turn_of.
  cbn [fst snd obind].
  destruct (eq_str r "user") eqn:Hr; cbn [assert obind strip]; [|reflexivity].
  destruct (eq_str (fst (last ((r, c) :: rest) (r, c))) "user"); cbn [assert obind];
    [|reflexivity].
  destruct (chat_turns_roles rest 0 ("" ++ B_INST ++ str_strip c ++ E_INST))
    as [H | [_ Hall]]; [exact H|].
  exfalso. cbn [existsb fst] in Hbad. unfold known_role at 1 in Hbad.
  rewrite Hr in Hbad. cbn [orb negb] in Hbad.
  clear -Hbad Hall. induction rest as [|t rest IH]; [discriminate Hbad|].
  cbn [existsb forallb] in *. apply andb_true_iff in Hall as [Ht Hall].
  rewrite Ht in Hbad. cbn [negb orb] in Hbad. now apply IH.
Qed.

End FlattenMore.

Lemma flatten_ignores_surrounding_whitespace_witness :
  same_trimmed [Spec.mkTurn Spec.User "  Hi"; Spec.mkTurn Spec.Assistant "Hello "]
               [Spec.mkTurn Spec.User "Hi "; Spec.mkTurn Spec.Assistant " Hello"] = true /\
  get_processed_input_data_for_chat_completion
    (map Spec.to_py [Spec.mkTurn Spec.User "  Hi"; Spec.mkTurn Spec.Assistant "Hello "])
  = get_processed_input_data_for_chat_completion
      (map Spec.to_py [Spec.mkTurn Spec.User "Hi "; Spec.mkTurn Spec.Assistant " Hello"]).
Proof.
  split; [reflexivity|].
  apply (flatten_ignores_surrounding_whitespace
           [Spec.mkTurn Spec.User "  Hi"; Spec.mkTurn Spec.Assistant "Hello "]
           [Spec.mkTurn Spec.User "Hi "; Spec.mkTurn Spec.Assistant " Hello"]).
  reflexivity.
Defined.

Lemma flatten_next_exchange_witness :
  Spec.alternation_invariant [Spec.mkTurn Spec.User "A"] = true /\
  get_processed_input_data_for_chat_completion
    (map Spec.to_py ([Spec.mkTurn Spec.User "A"]
                       ++ [Spec.mkTurn Spec.Assistant "B"; Spec.mkTurn Spec.User "C"])%list)
  = Returned ("[INST]A[/INST]B" ++ LF ++ "[INST]C[/INST]").
Proof.
  split; [reflexivity|].
  apply (flatten_next_exchange [Spec.mkTurn Spec.User "A"] "B" "C"). reflexivity.
Defined.

Lemma flatten_unknown_role_witness :
  get_processed_input_data_for_chat_completion
    (map turn_of [(PStr "system", "Be brief."); (PStr "user", "Hi")])
  = Raised (AssertionError "") /\
  get_processed_input_data_for_chat_completion
    (map turn_of [(PStr "user", "Hi"); (PStr "assistant", "Hello"); (PStr "tool", "42");
                  (PStr "assistant", "So?"); (PStr "user", "Bye")])
  = Raised (AssertionError "").
Proof.
  split.
  - apply (flatten_unknown_role [(PStr "system", "Be brief."); (PStr "user", "Hi")]).
    reflexivity.
  - apply (flatten_unknown_role
             [(PStr "user", "Hi"); (PStr "assistant", "Hello"); (PStr "tool", "42");
              (PStr "assistant", "So?"); (PStr "user", "Bye")]).
    reflexivity.
Defined.

(** ** The health check, attempt by attempt *)

Section HealthCheck.
Context {P : Platform}.

(** The loop when attempt [j] is the first to find the process. *)
Lemma while_not_running_found_at (j : nat) :
  forall (count : nat) (w : World) (x1 : Ext),
    count + j < RETRY_COUNT ->
    found_at j (ext w) = Some x1 ->
    while_not_running count w
    = (Returned (count + j), after_calls w x1 (attempts j ++ [Polled])).
Proof.
  induction j as [|j IH]; intros count w x1 Hcount Hfound; rewrite while_not_running_turn;
    rewrite (proj2 (Nat.ltb_lt count RETRY_COUNT) ltac:(lia));
    cbn [found_at] in Hfound; unfold process_iter_names;
    destruct (process_names (ext w)) as [[names|e] x0]; try discriminate Hfound;
    destruct (launcher_in names); try discriminate Hfound.
  - injection Hfound as ->. now rewrite Nat.add_0_r.
  - rewrite (IH (S count) (snd (sleep WAIT_TIME (step x0 Polled w))) x1 ltac:(lia) Hfound).
    rewrite after_attempt. f_equal. f_equal. lia.
Qed.

(** The whole check when attempt [j] is the first to find the process. *)
Lemma is_server_healthy_at (w : World) (j : nat) (x1 : Ext) :
  j < RETRY_COUNT ->
  found_at j (ext w) = Some x1 ->
  is_server_healthy w
  = (Returned match fst (requests_post LOCAL_HOST_URI probe_payload (time_sleep 5 x1)) with
              | Returned status_code => ((status_code =? 200) || (status_code =? 201))%Z
              | Raised _ => false
              end,
     after_calls w (snd (requests_post LOCAL_HOST_URI probe_payload (time_sleep 5 x1)))
       (attempts j ++ [Polled; Slept 5; Posted LOCAL_HOST_URI probe_payload])).
Proof.
  intros Hj Hfound. unfold is_server_healthy, bind at 1.
  rewrite (while_not_running_found_at j 0 w x1 Hj Hfound). cbn [Nat.add].
  rewrite (proj2 (Nat.leb_gt RETRY_COUNT j) Hj).
  unfold bind, sleep, try_except, post, step, after_calls.
  cbn [client task_type ext trace].
  change (Json.dumps (PDict [("inputs", PStr "Meaning of life is");
                             ("parameters", PDict [("max_new_tokens", PInt 2)])]))
    with probe_payload.
  destruct (requests_post LOCAL_HOST_URI probe_payload (time_sleep 5 x1))
    as [[status_code|e] x2]; cbn [fst snd client task_type ext trace].
  - rewrite <- !app_assoc. cbn [app].
    destruct ((status_code =? 200) || (status_code =? 201))%Z; reflexivity.
  - unfold ret. rewrite <- !app_assoc. reflexivity.
Qed.

Lemma slept_attempts (n : nat) : slept (attempts n) = (WAIT_TIME * Z.of_nat n)%Z.
Proof.
  induction n as [|n IH]; [reflexivity|].
  cbn [attempts slept]. rewrite IH. unfold WAIT_TIME. lia.
Qed.

Lemma polls_attempts (n : nat) : polls (attempts n) = n.
Proof.
  induction n as [|n IH]; [reflexivity|]. cbn [attempts polls]. now rewrite IH.
Qed.

(** X10.  When attempt [j] of the five is the first to find the
    launcher process, the check has polled [j + 1] times and slept
    [20 j + 5] seconds when it sends its one probe request; it returns
    [True] when the status is 200 or 201 and [False] on any other status
    and on any exception of the request, which it does not let through. *)
Theorem is_server_healthy_found (w : World) (j : nat) (x1 : Ext) :
  j < RETRY_COUNT ->
  found_at j (ext w) = Some x1 ->
  exists events,
    events = (attempts j ++ [Polled; Slept 5; Posted LOCAL_HOST_URI probe_payload])%list /\
    polls events = S j /\
    slept events = (20 * Z.of_nat j + 5)%Z /\
    is_server_healthy w
    = (Returned match fst (requests_post LOCAL_HOST_URI probe_payload (time_sleep 5 x1)) with
                | Returned status_code => ((status_code =? 200) || (status_code =? 201))%Z
                | Raised _ => false
                end,
       after_calls w (snd (requests_post LOCAL_HOST_URI probe_payload (time_sleep 5 x1)))
         events).
Proof.
  intros Hj Hfound. eexists. split; [reflexivity|].
  rewrite polls_app, slept_app, polls_attempts, slept_attempts.
  split; [cbn; lia|]. split; [unfold WAIT_TIME; cbn [slept]; lia|].
  now apply is_server_healthy_at.
Qed.

(** The loop, whatever the outside does: at most one poll for each
    attempt left, and twenty seconds of sleep for each but the last. *)
Lemma while_not_running_bounds (n : nat) :
  forall (count : nat) (w : World),
    RETRY_COUNT - count = n ->
    exists events,
      trace (snd (while_not_running count w)) = (trace w ++ events)%list /\
      polls events <= n /\ (0 <= slept events <= 20 * Z.of_nat n)%Z.
Proof.
  induction n as [|n IH]; intros count w Hn; rewrite while_not_running_turn.
  - rewrite (proj2 (Nat.ltb_ge count RETRY_COUNT) ltac:(lia)).
    exists []. rewrite app_nil_r. cbn. repeat split; lia.
  - rewrite (proj2 (Nat.ltb_lt count RETRY_COUNT) ltac:(lia)).
    unfold process_iter_names.
    destruct (process_names (ext w)) as [[names|e] x0].
    + destruct (launcher_in names).
      * exists [Polled]. cbn. repeat split; lia.
      * destruct (IH (S count) (snd (sleep WAIT_TIME (step x0 Polled w))) ltac:(lia))
          as (events & Htr & Hp & Hs).
        exists (Polled :: Slept WAIT_TIME :: events). rewrite Htr.
        cbn [sleep step snd trace polls slept]. rewrite <- !app_assoc.
        unfold WAIT_TIME. repeat split; try lia; try reflexivity.
    + exists [Polled]. cbn. repeat split; lia.
Qed.

(** X11.  Whatever the outside does, one run of the check polls the
    process table at most five times and sleeps at most 105 seconds. *)
Theorem is_server_healthy_bounds (w : World) :
  exists events,
    trace (snd (is_server_healthy w)) = (trace w ++ events)%list /\
    polls events <= 5 /\ (0 <= slept events <= 105)%Z.
Proof.
  destruct (while_not_running_bounds RETRY_COUNT 0 w eq_refl) as (events & Htr & Hp & Hs).
  unfold is_server_healthy, bind at 1.
  destruct (while_not_running 0 w) as [[count|e] w1]; cbn [snd] in Htr.
  - destruct (RETRY_COUNT <=? count)%nat.
    + exists events. cbn [raise snd]. unfold RETRY_COUNT in *. repeat split; lia || assumption.
    + unfold bind, sleep, try_except, post, step. cbn [client task_type ext trace].
      destruct (requests_post _ _ _) as [[status_code|e] x2].
      * exists (events ++ [Slept 5; Posted LOCAL_HOST_URI probe_payload])%list.
        split.
        -- destruct ((status_code =? 200) || (status_code =? 201))%Z;
             cbn [ret snd trace]; rewrite Htr, <- !app_assoc; reflexivity.
        -- rewrite polls_app, slept_app. cbn [polls slept]. unfold RETRY_COUNT in *. lia.
      * exists (events ++ [Slept 5; Posted LOCAL_HOST_URI probe_payload])%list.
        split.
        -- cbn [ret snd trace]. rewrite Htr, <- !app_assoc. reflexivity.
        -- rewrite polls_app, slept_app. cbn [polls slept]. unfold RETRY_COUNT in *. lia.
  - exists events. cbn [snd]. unfold RETRY_COUNT in *. repeat split; lia || assumption.
Qed.

End HealthCheck.

Lemma is_server_healthy_found_witness :
  found_at (P := Sim.started_late) 3 O = Some 4 /\
  exists events,
    events = [Polled; Slept 20; Polled; Slept 20; Polled; Slept 20;
              Polled; Slept 5; Posted "http://0.0.0.0:80" probe_payload] /\
    polls events = 4 /\
    slept events = 65%Z /\
    is_server_healthy (P := Sim.started_late) (initial_world (P := Sim.started_late) O)
    = (Returned false, after_calls (P := Sim.started_late)
                         (initial_world (P := Sim.started_late) O) 4 events).
Proof.
  split; [reflexivity|].
  apply (is_server_healthy_found (P := Sim.started_late)
           (initial_world (P := Sim.started_late) O) 3 4).
  - unfold RETRY_COUNT. lia.
  - reflexivity.
Defined.

(** ** Start-up, stage by stage *)

Section KeepsClient.
Context {P : Platform}.

Lemma client_kept_ret {A} (a : A) : keeps_client (ret a).
Proof. intros w; reflexivity. Qed.

Lemma client_kept_raise {A} (e : exn) : keeps_client (raise (A := A) e).
Proof. intros w; reflexivity. Qed.

Lemma client_kept_lift {A} (c : outcome A) : keeps_client (lift c).
Proof. intros w; reflexivity. Qed.

Lemma client_kept_read {A} (f : World -> A) : keeps_client (read f).
Proof. intros w; reflexivity. Qed.

Lemma client_kept_bind {A B} (c : M A) (k : A -> M B) :
  keeps_client c -> (forall a, keeps_client (k a)) -> keeps_client (bind c k).
Proof.
  intros Hc Hk w. unfold bind. specialize (Hc w).
  destruct (c w) as [[a|e] w1]; cbn [snd] in *; [|exact Hc].
  now rewrite (Hk a w1).
Qed.

Lemma client_kept_try_except {A} (body : M A) (handler : exn -> M A) :
  keeps_client body -> (forall e, keeps_client (handler e)) ->
  keeps_client (try_except body handler).
Proof.
  intros Hb Hh w. unfold try_except. specialize (Hb w).
  destruct (body w) as [[a|e] w1]; cbn [snd] in *; [exact Hb|].
  now rewrite (Hh e w1).
Qed.

Lemma client_kept_sleep (seconds : Z) : keeps_client (sleep seconds).
Proof. intros w; reflexivity. Qed.

Lemma client_kept_system (cmd : string) : keeps_client (system cmd).
Proof. intros w; reflexivity. Qed.

Lemma client_kept_process_iter_names : keeps_client process_iter_names.
Proof. intros w. unfold process_iter_names. now destruct (process_names (ext w)). Qed.

Lemma client_kept_post (url data : string) : keeps_client (post url data).
Proof. intros w. unfold post. now destruct (requests_post url data (ext w)). Qed.

Lemma client_kept_set_task_type (t : pyval) : keeps_client (write (set_task_type t)).
Proof. intros w; reflexivity. Qed.

Lemma inside_ret {A} (a : A) : stays_inside (ret a).
Proof. intros w; split; reflexivity. Qed.

Lemma inside_raise {A} (e : exn) : stays_inside (raise (A := A) e).
Proof. intros w; split; reflexivity. Qed.

Lemma inside_lift {A} (c : outcome A) : stays_inside (lift c).
Proof. intros w; split; reflexivity. Qed.

Lemma inside_read {A} (f : World -> A) : stays_inside (read f).
Proof. intros w; split; reflexivity. Qed.

Lemma inside_set_task_type (t : pyval) : stays_inside (write (set_task_type t)).
Proof. intros w; split; reflexivity. Qed.

Lemma inside_bind {A B} (c : M A) (k : A -> M B) :
  stays_inside c -> (forall a, stays_inside (k a)) -> stays_inside (bind c k).
Proof.
  intros Hc Hk w. unfold bind. specialize (Hc w).
  destruct (c w) as [[a|e] w1]; cbn [snd] in *; [|exact Hc].
  destruct Hc as [<- <-]. exact (Hk a w1).
Qed.

End KeepsClient.

Create HintDb client_kept.
#[local] Hint Resolve client_kept_ret client_kept_raise client_kept_lift client_kept_read
  client_kept_sleep client_kept_system client_kept_process_iter_names client_kept_post
  client_kept_set_task_type : client_kept.

Create HintDb inside.
#[local] Hint Resolve inside_ret inside_raise inside_lift inside_read
  inside_set_task_type : inside.

Ltac client_kept :=
  repeat first
    [ solve [auto with client_kept]
    | apply client_kept_bind
    | apply client_kept_try_except
    | progress cbv zeta
    | match goal with
      | |- forall _, _ => intro
      | |- keeps_client (if ?b then _ else _) => destruct b
      end ].

Ltac inside :=
  repeat first
    [ solve [auto with inside]
    | apply inside_bind
    | progress cbv zeta
    | match goal with
      | |- forall _, _ => intro
      | |- stays_inside (if ?b then _ else _) => destruct b
      end ].

Section InitStages.
Context {P : Platform}.
Import Spec.

Lemma client_kept_while_not_running (n : nat) :
  forall count, RETRY_COUNT - count = n -> keeps_client (while_not_running count).
Proof.
  induction n as [|n IH]; intros count Hn w; rewrite while_not_running_turn.
  - now rewrite (proj2 (Nat.ltb_ge count RETRY_COUNT) ltac:(lia)).
  - rewrite (proj2 (Nat.ltb_lt count RETRY_COUNT) ltac:(lia)).
    pose proof (client_kept_process_iter_names w) as Hpoll.
    destruct (process_iter_names w) as [[names|e] w1]; cbn [snd] in Hpoll; [|exact Hpoll].
    destruct (launcher_in names); [exact Hpoll|].
    rewrite (IH (S count) ltac:(lia)). now rewrite client_kept_sleep.
Qed.

Lemma client_kept_is_server_healthy : keeps_client is_server_healthy.
Proof.
  unfold is_server_healthy. apply client_kept_bind.
  - exact (client_kept_while_not_running _ 0 eq_refl).
  - client_kept.
Qed.

Lemma client_kept_while_not_healthy (fuel : nat) :
  forall w r w', while_not_healthy fuel w = Some (r, w') -> client w' = client w.
Proof.
  induction fuel as [|fuel IH]; intros w r w' Hloop; [discriminate Hloop|].
  cbn [while_not_healthy] in Hloop.
  pose proof (client_kept_is_server_healthy w) as Hcheck.
  destruct (is_server_healthy w) as [[[|]|e] w1]; cbn [snd] in Hcheck.
  - injection Hloop as _ <-. exact Hcheck.
  - apply IH in Hloop. rewrite Hloop, <- Hcheck. apply client_kept_sleep.
  - injection Hloop as _ <-. exact Hcheck.
Qed.

Lemma client_kept_init_task_type (path : string) : keeps_client (init_task_type path).
Proof. unfold init_task_type. client_kept. Qed.

Lemma inside_init_task_type (path : string) : stays_inside (init_task_type path).
Proof. unfold init_task_type. inside. Qed.

Lemma client_kept_init_launch : keeps_client init_launch.
Proof.
  unfold init_launch, getenv, environ_get_default.
  pose proof client_kept_init_task_type as Hblock.
  client_kept.
Qed.

(** The end of [init] sets the client only when it returns. *)
Lemma init_client_raises (timeout : pyval) (w : World) (e : exn) (w' : World) :
  init_client timeout w = (Raised e, w') -> client w' = client w.
Proof.
  unfold init_client, bind, system, Client_new, write, step.
  cbn [ext client task_type trace].
  destruct (new_client _ _ _) as [[c|e0] x1]; [discriminate|].
  now intros [= _ <-].
Qed.

(** [init_launch], after its descriptor block has returned. *)
Lemma init_launch_after_block (w w1 : World) :
  init_task_type (abs_mlmodel_path (ext w)) w = (Returned tt, w1) ->
  init_launch w
  = match os_listdir (ext w) (model_path (ext w)) with
    | Returned _ =>
        (Returned (client_timeout (ext w)),
         after_calls w1 (time_sleep 20 (os_system (launch_command (ext w)) (ext w)))
           [Ran (launch_command (ext w)); Slept 20])
    | Raised e => (Raised e, w1)
    end.
Proof.
  intros Hblock.
  pose proof (inside_init_task_type (abs_mlmodel_path (ext w)) w) as [Hext Htrace].
  rewrite Hblock in Hext, Htrace. cbn [snd] in Hext, Htrace.
  unfold init_launch.
  unfold bind at 1, getenv at 1, read at 1.
  unfold bind at 1, environ_get_default, read at 1.
  unfold bind at 1, getenv at 1, read at 1.
  change (path_join _ MLMODEL_PATH) with (abs_mlmodel_path (ext w)).
  unfold bind at 1. rewrite Hblock.
  unfold bind at 1, read at 1. unfold bind at 1, lift at 1.
  change (path_join _ _) with (model_path (ext w)). rewrite Hext.
  destruct (os_listdir (ext w) (model_path (ext w))) as [names|e]; [|reflexivity].
  unfold bind, system, sleep, ret, step, after_calls.
  cbn [client task_type ext trace]. rewrite Hext.
  change ("text-generation-launcher --model-id " ++ model_path (ext w) ++ " &")
    with (launch_command (ext w)).
  change (match environ_get (ext w) CLIENT_TIMEOUT with
          | Some s => PStr s
          | None => PInt MAX_REQUEST_TIMEOUT
          end) with (client_timeout (ext w)).
  now rewrite <- !app_assoc.
Qed.

End InitStages.

Section InitProperties.
Context {P : Platform}.
Import Spec.

(** X12.  When the descriptor names a task type, [init] stores it in
    the global before it checks it: with one of the two supported
    strings the descriptor block returns, with any other value, string
    or not, it raises [Unsupported task_type] followed by [str] of the
    value, and the global is left holding that value. *)
Theorem init_task_type_named (w : World) (mlmodel v : pyval) :
  mlmodel_file (ext w) = Some (Returned mlmodel) ->
  descriptor_task_type mlmodel = Some v ->
  init_task_type (abs_mlmodel_path (ext w)) w
  = (if eq_str v SupportedTask.TEXT_GENERATION || eq_str v SupportedTask.CHAT_COMPLETION
     then Returned tt
     else Raised (Exception ("Unsupported task_type " ++ str v)),
     set_task_type v w).
Proof.
  intros Hfile Hpath.
  rewrite init_task_type_reads, Hfile.
  unfold descriptor_task_type in Hpath.
  destruct mlmodel as [ |b|n|r|s0|items|top]; try discriminate Hpath.
  destruct (lookup "flavors" top) as [flavors|] eqn:Hflavors; [|discriminate Hpath].
  destruct flavors as [ |b|n|r|s0|items|flavors]; try discriminate Hpath.
  destruct (lookup "hftransformersv2" flavors) as [flavor|] eqn:Hflavor;
    [|discriminate Hpath].
  destruct flavor as [ |b|n|r|s0|items|flavor]; try discriminate Hpath.
  assert (Htop : truthy (PDict top) = true)
    by (destruct top; [discriminate Hflavors | reflexivity]).
  rewrite Htop.
  unfold bind at 1, lift at 1. cbn [get]. rewrite Hflavors.
  unfold bind at 1, lift at 1. cbn [contains]. rewrite Hflavor.
  unfold bind at 1, lift at 1. cbn [subscript]. rewrite Hflavor.
  unfold bind at 1, lift at 1. cbn [subscript]. rewrite Hpath.
  unfold bind, write, raise, ret.
  destruct (eq_str v SupportedTask.TEXT_GENERATION || eq_str v SupportedTask.CHAT_COMPLETION);
    reflexivity.
Qed.


(** The check when none of the five attempts finds the process. *)
Lemma is_server_healthy_never_found (w : World) :
  never_found RETRY_COUNT (ext w) = true ->
  exists x',
    is_server_healthy w
    = (Raised (Exception "Sever process not running after waiting for 100. Terminating"),
       after_calls w x' (attempts RETRY_COUNT)).
Proof.
  intros Hnever.
  destruct (while_not_running_never_found RETRY_COUNT 0 w eq_refl Hnever) as [x' Hloop].
  exists x'. unfold is_server_healthy, bind at 1. now rewrite Hloop.
Qed.

Lemma block_returned (w : World) :
  fst (init_task_type (abs_mlmodel_path (ext w)) w) = Returned tt ->
  exists w1,
    init_task_type (abs_mlmodel_path (ext w)) w = (Returned tt, w1) /\
    client w1 = client w /\ ext w1 = ext w /\ trace w1 = trace w.
Proof.
  intros Hblock.
  pose proof (client_kept_init_task_type (abs_mlmodel_path (ext w)) w) as Hc.
  pose proof (inside_init_task_type (abs_mlmodel_path (ext w)) w) as [Hx Ht].
  destruct (init_task_type (abs_mlmodel_path (ext w)) w) as [r w1].
  cbn [fst snd] in *. subst r. exists w1. auto.
Qed.

(** X14.  When the descriptor block and the listing of the model
    directory go through but none of the five attempts of the first
    health check finds the launcher process, [init] fails with the
    message of the check behind its own prefix, having run the launch
    command once and slept 120 seconds, and sets no client. *)
Theorem init_launcher_never_starts (fuel : nat) (w : World) (names : list string) :
  fst (init_task_type (abs_mlmodel_path (ext w)) w) = Returned tt ->
  os_listdir (ext w) (model_path (ext w)) = Returned names ->
  never_found RETRY_COUNT
    (time_sleep 20 (os_system (launch_command (ext w)) (ext w))) = true ->
  exists w',
    init (S fuel) w
    = Some (Raised (Exception ("Error in creating client or server: "
                                 ++ "Sever process not running after waiting for 100. Terminating")),
            w') /\
    client w' = client w /\
    trace w' = (trace w ++ [Ran (launch_command (ext w)); Slept 20]
                  ++ attempts RETRY_COUNT)%list /\
    slept (trace w') = (slept (trace w) + 120)%Z.
Proof.
  intros Hblock Hlist Hnever.
  destruct (block_returned w Hblock) as (w1 & Hb & Hc & Hx & Ht).
  pose proof (init_launch_after_block w w1 Hb) as Hlaunch. rewrite Hlist in Hlaunch.
  set (w2 := after_calls w1 (time_sleep 20 (os_system (launch_command (ext w)) (ext w)))
               [Ran (launch_command (ext w)); Slept 20]) in *.
  destruct (is_server_healthy_never_found w2 Hnever) as [x' Hcheck].
  exists (after_calls w2 x' (attempts RETRY_COUNT)).
  unfold init. rewrite Hlaunch. cbn [while_not_healthy]. rewrite Hcheck.
  split; [reflexivity|]. subst w2. cbn [after_calls client trace].
  split; [exact Hc|]. rewrite Ht, <- app_assoc. split; [reflexivity|].
  rewrite !slept_app. cbn [slept attempts RETRY_COUNT]. unfold WAIT_TIME. lia.
Qed.

(** X15.  When the model directory cannot be listed, [init] fails with
    the message of that failure behind its own prefix before it launches
    anything: no command has run, nothing was slept, no client is set. *)
Theorem init_unlistable_model_dir (fuel : nat) (w : World) (e : exn) :
  fst (init_task_type (abs_mlmodel_path (ext w)) w) = Returned tt ->
  os_listdir (ext w) (model_path (ext w)) = Raised e ->
  exists w',
    init fuel w
    = Some (Raised (Exception ("Error in creating client or server: " ++ str_exn e)), w') /\
    client w' = client w /\ ext w' = ext w /\ trace w' = trace w.
Proof.
  intros Hblock Hlist.
  destruct (block_returned w Hblock) as (w1 & Hb & Hc & Hx & Ht).
  pose proof (init_launch_after_block w w1 Hb) as Hlaunch. rewrite Hlist in Hlaunch.
  exists w1. unfold init. rewrite Hlaunch. auto.
Qed.

(** X16.  When the descriptor block and the listing go through, attempt
    [j] of the first health check finds the launcher process and the
    probe is answered with 200 or 201, [init] returns with the global
    [client] set to the client made for [LOCAL_HOST_URI] with the
    timeout of the environment (90 when [TIMEOUT] is not set), having
    run the launch command, slept 20 seconds, polled [j + 1] times 20
    seconds apart, slept 5 seconds, probed once and run [nvidia-smi]. *)
Theorem init_succeeds (fuel : nat) (w : World) (names : list string) (j : nat)
    (x1 x2 x3 : Ext) (status_code : Z) (c : Client) :
  fst (init_task_type (abs_mlmodel_path (ext w)) w) = Returned tt ->
  os_listdir (ext w) (model_path (ext w)) = Returned names ->
  j < RETRY_COUNT ->
  found_at j (time_sleep 20 (os_system (launch_command (ext w)) (ext w))) = Some x1 ->
  requests_post LOCAL_HOST_URI probe_payload (time_sleep 5 x1) = (Returned status_code, x2) ->
  status_code = 200%Z \/ status_code = 201%Z ->
  new_client LOCAL_HOST_URI (client_timeout (ext w)) (os_system "nvidia-smi" x2)
  = (Returned c, x3) ->
  exists w',
    init (S fuel) w = Some (Returned tt, w') /\
    client w' = Some c /\
    task_type w' = task_type (snd (init_task_type (abs_mlmodel_path (ext w)) w)) /\
    ext w' = x3 /\
    trace w' = (trace w ++ [Ran (launch_command (ext w)); Slept 20] ++ attempts j
                  ++ [Polled; Slept 5; Posted LOCAL_HOST_URI probe_payload;
                      Ran "nvidia-smi"])%list.
Proof.
  intros Hblock Hlist Hj Hfound Hpost Hstatus Hnew.
  destruct (block_returned w Hblock) as (w1 & Hb & Hc & Hx & Ht).
  pose proof (init_launch_after_block w w1 Hb) as Hlaunch. rewrite Hlist in Hlaunch.
  set (w2 := after_calls w1 (time_sleep 20 (os_system (launch_command (ext w)) (ext w)))
               [Ran (launch_command (ext w)); Slept 20]) in *.
  pose proof (is_server_healthy_at w2 j x1 Hj Hfound) as Hcheck.
  rewrite Hpost in Hcheck. cbn [fst snd] in Hcheck.
  assert (Hok : ((status_code =? 200) || (status_code =? 201))%Z = true)
    by (destruct Hstatus as [-> | ->]; reflexivity).
  rewrite Hok in Hcheck.
  eexists. unfold init. rewrite Hlaunch. cbn [while_not_healthy]. rewrite Hcheck.
  unfold init_client, bind, system, Client_new, write, step, after_calls.
  cbn [client task_type ext trace]. rewrite Hnew.
  split; [reflexivity|]. unfold set_client. cbn [client task_type ext trace].
  rewrite Hb. cbn [snd]. subst w2. cbn [after_calls client task_type ext trace].
  repeat split. rewrite Ht, <- !app_assoc. reflexivity.
Qed.

End InitProperties.

(** ** Start-up on the simulated machine *)

Lemma init_task_type_named_witness :
  init_task_type (P := Sim.described Sim.chat_descriptor)
    (abs_mlmodel_path (P := Sim.described Sim.chat_descriptor) O)
    (initial_world (P := Sim.described Sim.chat_descriptor) O)
  = (Returned tt,
     set_task_type (P := Sim.described Sim.chat_descriptor) (PStr "chat-completion")
       (initial_world (P := Sim.described Sim.chat_descriptor) O)) /\
  init_task_type (P := Sim.described Sim.numeric_task_type)
    (abs_mlmodel_path (P := Sim.described Sim.numeric_task_type) O)
    (initial_world (P := Sim.described Sim.numeric_task_type) O)
  = (Raised (Exception "Unsupported task_type 7"),
     set_task_type (P := Sim.described Sim.numeric_task_type) (PInt 7)
       (initial_world (P := Sim.described Sim.numeric_task_type) O)).
Proof.
  split.
  - apply (init_task_type_named (P := Sim.described Sim.chat_descriptor)
             (initial_world (P := Sim.described Sim.chat_descriptor) O)
             Sim.chat_descriptor (PStr "chat-completion")); reflexivity.
  - apply (init_task_type_named (P := Sim.described Sim.numeric_task_type)
             (initial_world (P := Sim.described Sim.numeric_task_type) O)
             Sim.numeric_task_type (PInt 7)); reflexivity.
Defined.


Lemma init_launcher_never_starts_witness :
  never_found (P := Sim.never_started) RETRY_COUNT O = true /\
  exists w',
    init (P := Sim.never_started) 1 (initial_world (P := Sim.never_started) O)
    = Some (Raised (Exception ("Error in creating client or server: "
                                 ++ "Sever process not running after waiting for 100. Terminating")),
            w') /\
    client w' = None /\
    trace w'
    = [Ran "text-generation-launcher --model-id mlflow_model_folder/data/model &"; Slept 20;
       Polled; Slept 20; Polled; Slept 20; Polled; Slept 20; Polled; Slept 20;
       Polled; Slept 20] /\
    slept (trace w') = 120%Z.
Proof.
  split; [reflexivity|].
  apply (init_launcher_never_starts (P := Sim.never_started) 0
           (initial_world (P := Sim.never_started) O) []); reflexivity.
Defined.

Lemma init_unlistable_model_dir_witness :
  exists w',
    init (P := Sim.without_model_dir) 1 (initial_world (P := Sim.without_model_dir) O)
    = Some (Raised (Exception
                      "Error in creating client or server: No such file or directory"), w') /\
    client w' = None /\ ext w' = O /\ trace w' = [].
Proof.
  apply (init_unlistable_model_dir (P := Sim.without_model_dir) 1
           (initial_world (P := Sim.without_model_dir) O)
           (OtherError "FileNotFoundError" "No such file or directory")); reflexivity.
Defined.

Lemma init_succeeds_witness :
  exists w',
    init (P := Sim.serving) 1 (initial_world (P := Sim.serving) O) = Some (Returned tt, w') /\
    client w' = Some tt /\
    task_type w' = PStr "text-generation" /\
    ext w' = 1 /\
    trace w'
    = [Ran "text-generation-launcher --model-id mlflow_model_folder/data/model &"; Slept 20;
       Polled; Slept 5; Posted "http://0.0.0.0:80" probe_payload; Ran "nvidia-smi"].
Proof.
  apply (init_succeeds (P := Sim.serving) 0 (initial_world (P := Sim.serving) O)
           [] 0 1 1 1 200%Z tt); try reflexivity.
  - unfold RETRY_COUNT. lia.
  - left; reflexivity.
Defined.

(** ** What can end the readiness wait *)

Section ReadinessWait.
Context {P : Platform}.

Lemma while_not_running_raises (n : nat) :
  forall (count : nat) (w : World) (e : exn) (w' : World),
    RETRY_COUNT - count = n ->
    while_not_running count w = (Raised e, w') ->
    exists x x', process_names x = (Raised e, x').
Proof.
  induction n as [|n IH]; intros count w e w' Hn; rewrite while_not_running_turn.
  - rewrite (proj2 (Nat.ltb_ge count RETRY_COUNT) ltac:(lia)). discriminate.
  - rewrite (proj2 (Nat.ltb_lt count RETRY_COUNT) ltac:(lia)).
    unfold process_iter_names.
    destruct (process_names (ext w)) as [[names|e0] x0] eqn:Hpoll.
    + destruct (launcher_in names); [discriminate|].
      apply (IH (S count)). lia.
    + intros [= <- _]. eauto.
Qed.

Lemma is_server_healthy_raises (w : World) (e : exn) (w' : World) :
  is_server_healthy w = (Raised e, w') ->
  e = Exception "Sever process not running after waiting for 100. Terminating"
  \/ exists x x', process_names x = (Raised e, x').
Proof.
  unfold is_server_healthy, bind at 1.
  destruct (while_not_running 0 w) as [[count|e0] w1] eqn:Hloop.
  - destruct (RETRY_COUNT <=? count)%nat.
    + intros [= <- _]. now left.
    + unfold bind, sleep, try_except, post.
      destruct (requests_post _ _ _) as [[status_code|e1] x2]; cbn [fst snd].
      * destruct ((status_code =? 200) || (status_code =? 201))%Z; discriminate.
      * discriminate.
  - intros [= <- _]. right.
    exact (while_not_running_raises RETRY_COUNT 0 w e0 w1 eq_refl Hloop).
Qed.

(** X17.  The wait for the server in [init] gives up for one reason
    only: a health check that raises, because the launcher process was
    not found in five attempts or because the process table could not
    be read.  No status and no exception of the probe request ends it. *)
Theorem while_not_healthy_raises (fuel : nat) :
  forall (w : World) (e : exn) (w' : World),
    while_not_healthy fuel w = Some (Raised e, w') ->
    e = Exception "Sever process not running after waiting for 100. Terminating"
    \/ exists x x', process_names x = (Raised e, x').
Proof.
  induction fuel as [|fuel IH]; intros w e w' Hloop; [discriminate Hloop|].
  cbn [while_not_healthy] in Hloop.
  destruct (is_server_healthy w) as [[[|]|e0] w1] eqn:Hcheck.
  - discriminate Hloop.
  - exact (IH _ e w' Hloop).
  - injection Hloop as <- _. exact (is_server_healthy_raises w e0 w1 Hcheck).
Qed.

End ReadinessWait.

Lemma while_not_healthy_raises_witness :
  exists w',
    while_not_healthy (P := Sim.never_started) 1 (initial_world (P := Sim.never_started) O)
    = Some (Raised (Exception "Sever process not running after waiting for 100. Terminating"),
            w') /\
    (Exception "Sever process not running after waiting for 100. Terminating"
     = Exception "Sever process not running after waiting for 100. Terminating"
     \/ exists x x',
          process_names (Platform := Sim.never_started) x
          = (Raised (Exception "Sever process not running after waiting for 100. Terminating"),
             x')).
Proof.
  eexists. split; [reflexivity|].
  apply (while_not_healthy_raises (P := Sim.never_started) 1
           (initial_world (P := Sim.never_started) O) _ _ eq_refl).
Defined.
